(** * Pdf_merger.py: validators, collectors and conversion drivers

    A shallow embedding of [Pdf_merger.py].  The program is an interactive
    shell around external libraries (PyPDF2, PIL, requests, readability,
    pdfkit, LibreOffice); what it owns is the control flow around them:
    filename validation, the prompt loops, the per-item error counting and
    the cleanup of output files and of the temporary directory.

    Conventions of the embedding:
    - a Python [str] is a Rocq [string]; its characters are read as Latin-1
      code points, and [lower], [strip] and [isspace] follow [str.lower],
      [str.strip] and [str.isspace] on that range;
    - [os.path] is [posixpath] (the separator is [/]);
    - the disk is a finite map from paths to the contents of regular files,
      together with the set of the temporary directories that exist;
    - terminal input is the list of lines still to be read; [input()] on the
      empty list raises [EOFError];
    - [print] appends an [event] to the transcript;
    - what the external libraries answer is either read off the contents of
      the file they are given, or, where it depends on the outside world
      (network, converter subprocess, disk errors), passed in as an explicit
      argument. *)

From Stdlib Require Import ZArith Ascii String List Bool Lia.
From stdpp Require Import base strings gmap list fin_maps.

Open Scope string_scope.
Open Scope list_scope.

(** ** Python strings *)

Module Str.

(** [str.isspace] on one Latin-1 character: TAB, LF, VT, FF, CR, the four
    separators FS GS RS US, SPACE, NEL and NBSP. *)
Definition isspace (c : ascii) : bool :=
  let n := N_of_ascii c in
  ((9 <=? n) && (n <=? 13) || (28 <=? n) && (n <=? 32)
   || (n =? 133) || (n =? 160))%N.

(** [str.lower] on one Latin-1 character: [A-Z], and the accented capitals
    U+00C0..U+00DE without the multiplication sign U+00D7, move up by 32. *)
Definition lower_char (c : ascii) : ascii :=
  let n := N_of_ascii c in
  if ((65 <=? n) && (n <=? 90)
      || (192 <=? n) && (n <=? 222) && negb (n =? 215))%N
  then ascii_of_N (n + 32) else c.

Fixpoint lower (s : string) : string :=
  match s with
  | EmptyString => EmptyString
  | String c s' => String (lower_char c) (lower s')
  end.

(** [s.lstrip(chars)] and [s.rstrip(chars)], with the set of characters to
    remove given as a predicate. *)
Fixpoint lstrip_by (p : ascii -> bool) (s : string) : string :=
  match s with
  | EmptyString => EmptyString
  | String c s' => if p c then lstrip_by p s' else s
  end.

Fixpoint rstrip_by (p : ascii -> bool) (s : string) : string :=
  match s with
  | EmptyString => EmptyString
  | String c s' =>
      match rstrip_by p s' with
      | EmptyString => if p c then EmptyString else String c EmptyString
      | r => String c r
      end
  end.

(** [s.strip()] *)
Definition strip (s : string) : string := rstrip_by isspace (lstrip_by isspace s).

(** [s.endswith(suffix)] *)
Fixpoint endswith (s suffix : string) : bool :=
  String.eqb s suffix
  || match s with
     | EmptyString => false
     | String _ s' => endswith s' suffix
     end.

(** [s.endswith(suffixes)] with a tuple of suffixes. *)
Definition endswith_any (s : string) (suffixes : list string) : bool :=
  existsb (endswith s) suffixes.

(** [s.rfind(c)] for a one-character needle: the highest index, or -1. *)
Fixpoint rfind (s : string) (c : ascii) : Z :=
  match s with
  | EmptyString => (-1)%Z
  | String a s' =>
      let r := rfind s' c in
      if (0 <=? r)%Z then (r + 1)%Z
      else if Ascii.eqb a c then 0%Z else (-1)%Z
  end.

(** The slices [s[:i]] and [s[i:]] for [0 <= i]. *)
Fixpoint take (n : nat) (s : string) : string :=
  match n, s with
  | S n', String c s' => String c (take n' s')
  | _, _ => EmptyString
  end.

Fixpoint drop (n : nat) (s : string) : string :=
  match n, s with
  | S n', String _ s' => drop n' s'
  | _, _ => s
  end.

Definition slice_to (s : string) (i : Z) : string := take (Z.to_nat i) s.
Definition slice_from (s : string) (i : Z) : string := drop (Z.to_nat i) s.

(** [c * n] *)
Fixpoint replicate (n : nat) (c : ascii) : string :=
  match n with
  | O => EmptyString
  | S n' => String c (replicate n' c)
  end.

(** Truth value of a string: non-empty. *)
Definition truthy (s : string) : bool := negb (String.eqb s EmptyString).

(** Membership of a character, as in [c in s]. *)
Fixpoint contains (c : ascii) (s : string) : bool :=
  match s with
  | EmptyString => false
  | String a s' => Ascii.eqb a c || contains c s'
  end.

End Str.

(** ** os.path (posixpath) *)

Module Path.

Definition sep : ascii := "/"%char.
Definition extsep : ascii := "."%char.

(** [posixpath.dirname]:
    [i = p.rfind(sep) + 1; head = p[:i];
     if head and head != sep*len(head): head = head.rstrip(sep)]. *)
Definition dirname (p : string) : string :=
  let i := (Str.rfind p sep + 1)%Z in
  let head := Str.slice_to p i in
  if Str.truthy head
     && negb (String.eqb head (Str.replicate (String.length head) sep))
  then Str.rstrip_by (Ascii.eqb sep) head
  else head.

(** [posixpath.basename]: [i = p.rfind(sep) + 1; return p[i:]]. *)
Definition basename (p : string) : string :=
  Str.slice_from p (Str.rfind p sep + 1).

(** The loop of [genericpath._splitext] that skips leading dots: is there
    a character other than the dot in [p[filenameIndex:dotIndex]]? *)
Fixpoint has_non_dot (s : string) : bool :=
  match s with
  | EmptyString => false
  | String c s' => negb (Ascii.eqb c extsep) || has_non_dot s'
  end.

(** [posixpath.splitext] *)
Definition splitext (p : string) : string * string :=
  let sepIndex := Str.rfind p sep in
  let dotIndex := Str.rfind p extsep in
  if (sepIndex <? dotIndex)%Z
     && has_non_dot (Str.slice_to (Str.slice_from p (sepIndex + 1))
                                  (dotIndex - (sepIndex + 1)))
  then (Str.slice_to p dotIndex, Str.slice_from p dotIndex)
  else (p, EmptyString).

(** [posixpath.join] of two components: an absolute second component
    replaces the first; otherwise one separator is put between them unless
    the first is empty or already ends in one. *)
Definition join (a b : string) : string :=
  match b with
  | String "/" _ => b
  | _ => if negb (Str.truthy a) || Str.endswith a "/" then a +:+ b
         else a +:+ "/" +:+ b
  end.

End Path.

(** ** Exceptions, files and the state of the world *)

(** The exceptions the program raises itself carry their message; the
    others stand for what the wrapped libraries and the operating system
    raise. *)
Inductive exn : Type :=
| ValueError (msg : string)
| FileNotFoundError (msg : string)
| RuntimeError (msg : string)
| EOFError                      (* [input()] at the end of the input *)
| OSError                       (* [open], [write], [os.remove] failing *)
| PdfReadError                  (* PyPDF2 cannot parse the file *)
| UnidentifiedImageError        (* PIL cannot open the file *)
| CalledProcessError            (* [subprocess.run(check=True)] *)
| RequestException              (* transport error or timeout in [requests.get] *)
| HTTPError (status : Z)        (* [response.raise_for_status()] *)
| Unparseable                   (* readability failing on the page *)
| RenderError.                  (* pdfkit / wkhtmltopdf failing *)

#[global] Instance exn_eq_dec : EqDecision exn.
Proof. solve_decision. Defined.

Inductive result (A : Type) : Type :=
| Ok (a : A)
| Raise (e : exn).
Arguments Ok {A} a.
Arguments Raise {A} e.

(** A page of a PDF document; only its identity matters here. *)
Definition page : Type := string.

(** What a file holds, as far as the libraries that read it can tell. *)
Inductive content : Type :=
| PdfDoc (pages : list page)    (* a PDF that PyPDF2 parses *)
| Picture (mode : string)       (* an image that PIL opens, with its [mode] *)
| Bytes.                        (* anything else: office documents, broken or
                                   partially written files *)

#[global] Instance content_eq_dec : EqDecision content.
Proof. solve_decision. Defined.

(** An opened PIL image: where it came from and its colour mode. *)
Record image : Type := Image { img_path : string; img_mode : string }.

#[global] Instance image_eq_dec : EqDecision image.
Proof. solve_decision. Defined.

(** One line of terminal output. *)
Inductive event : Type :=
| Say (msg : string)                       (* headings and warnings *)
| Validated (file_name : string)           (* "Validated: ..." *)
| Rejected (e : exn)                       (* "Error: ..." in a collector *)
| PathRefused                              (* "Please enter a filename only, not a path" *)
| Added (file_path : string)               (* "Added: ..." / "Converted: ..." *)
| Failed (file_path : string) (e : exn)    (* "Failed ...: ...", "Error converting ...: ...",
                                              "Failed to merge ...: ..." *)
| Processed (path : string)                (* "Processed: ..." *)
| Created (output_filename : string)       (* "Successfully created: ..." *)
| Stats (succeeded failed : Z)             (* "Stats: n succeeded, m failed" *)
| Count (n : nat)                          (* "Number of images converted: n" *)
| Title (t : string)                       (* "Article title: ..." *)
| Critical (e : exn)                       (* "Critical error: ..." *)
| ConversionFailed (e : exn).              (* "Conversion failed: ..." *)

Record world : Type := World {
  stdin : list string;             (* lines not yet read *)
  stdout : list event;             (* lines printed so far, oldest first *)
  files : gmap string content;     (* regular files, by path *)
  dirs : gset string               (* temporary directories, by path *)
}.

Definition set_stdin (l : list string) (w : world) : world :=
  World l (stdout w) (files w) (dirs w).
Definition set_stdout (o : list event) (w : world) : world :=
  World (stdin w) o (files w) (dirs w).
Definition set_files (f : gmap string content) (w : world) : world :=
  World (stdin w) (stdout w) f (dirs w).
Definition set_dirs (d : gset string) (w : world) : world :=
  World (stdin w) (stdout w) (files w) d.

(** ** Computations: state and exceptions *)

Definition M (A : Type) : Type := world -> result A * world.

#[global] Instance M_ret : MRet M := fun A a w => (Ok a, w).
#[global] Instance M_bind : MBind M := fun A B k m w =>
  match m w with
  | (Ok a, w') => k a w'
  | (Raise e, w') => (Raise e, w')
  end.

Definition raise {A} (e : exn) : M A := fun w => (Raise e, w).

(** [try: m except Exception as e: h e]; what [m] did to the world before
    it raised stays done. *)
Definition try_except {A} (m : M A) (h : exn -> M A) : M A :=
  fun w => match m w with
           | (Ok a, w') => (Ok a, w')
           | (Raise e, w') => h e w'
           end.

(** [try: m finally: f]; an exception of [f] replaces the outcome of [m]. *)
Definition try_finally {A} (m : M A) (f : M unit) : M A :=
  fun w => match m w with
           | (r, w') => match f w' with
                        | (Ok _, w'') => (r, w'')
                        | (Raise e, w'') => (Raise e, w'')
                        end
           end.

Definition get : M world := fun w => (Ok w, w).
Definition modify (f : world -> world) : M unit := fun w => (Ok tt, f w).

Definition print (e : event) : M unit :=
  modify (fun w => set_stdout (stdout w ++ [e]) w).

(** [os.path.exists] *)
Definition path_exists (w : world) (p : string) : bool :=
  bool_decide (is_Some (files w !! p)) || bool_decide (p ∈ dirs w).

(** [os.remove]: unlinks a regular file, raises otherwise. *)
Definition os_remove (p : string) : M unit :=
  fun w => match files w !! p with
           | Some _ => (Ok tt, set_files (delete p (files w)) w)
           | None => (Raise OSError, w)
           end.

(** [str(e)] *)
Definition str_exn (e : exn) : string :=
  match e with
  | ValueError msg | FileNotFoundError msg | RuntimeError msg => msg
  | EOFError => "EOF when reading a line"
  | OSError => "OSError"
  | PdfReadError => "PdfReadError"
  | UnidentifiedImageError => "cannot identify image file"
  | CalledProcessError => "returned non-zero exit status"
  | RequestException => "RequestException"
  | HTTPError _ => "HTTPError"
  | Unparseable => "Unparseable"
  | RenderError => "wkhtmltopdf reported an error"
  end.

(** ** The wrapped libraries, as far as the program uses them *)

(** [with open(path, 'rb') as f: PdfReader(f)], and what [merger.append]
    reads: the pages of the document.  One reading stands for both: a
    file that [PdfReader] parses and [merger.append] then refuses is not
    among the contents modelled. *)
Definition read_pdf (path : string) : M (list page) :=
  fun w => match files w !! path with
           | Some (PdfDoc pages) => (Ok pages, w)
           | Some _ => (Raise PdfReadError, w)
           | None => (Raise OSError, w)
           end.

(** [Image.open(path)] *)
Definition Image_open (path : string) : M image :=
  fun w => match files w !! path with
           | Some (Picture mode) => (Ok (Image path mode), w)
           | Some _ => (Raise UnidentifiedImageError, w)
           | None => (Raise OSError, w)
           end.

(** [img.convert(mode)] *)
Definition convert (mode : string) (img : image) : image :=
  Image (img_path img) mode.

(** The modes of PIL that carry an alpha band. *)
Definition alpha_modes : list string := ["RGBA"; "LA"; "PA"; "RGBa"; "La"].
Definition has_alpha (mode : string) : bool :=
  existsb (String.eqb mode) alpha_modes.

(** How the disk answers [open(name, 'wb')] followed by a write: all of it
    is written; or the file cannot be opened and nothing changes; or the
    file is created (or truncated) and the write fails part-way. *)
Inductive write_outcome : Type := Written | CannotOpen | Interrupted.

(** Writing [c] under [name]; [err] is what the writer raises when the
    disk fails it. *)
Definition write_file (err : exn) (disk : write_outcome) (name : string)
    (c : content) : M unit :=
  match disk with
  | Written => modify (fun w => set_files (<[name := c]> (files w)) w)
  | CannotOpen => raise err
  | Interrupted =>
      modify (fun w => set_files (<[name := Bytes]> (files w)) w);;
      raise err
  end.

(** ** Filename validators *)

Definition validate_pdf_file (filename : string) : M unit :=
  w ← get;
  if Str.truthy (Path.dirname filename) then
    raise (ValueError "Please enter filename only")
  else if negb (path_exists w filename) then
    raise (FileNotFoundError ("File '" +:+ filename +:+ "' not found"))
  else if negb (Str.endswith (Str.lower filename) ".pdf") then
    raise (ValueError "Not a PDF file")
  else read_pdf filename;; mret tt.

Definition image_extensions : list string :=
  [".jpg"; ".jpeg"; ".png"; ".webp"; ".bmp"].

(** The last test opens the file with PIL, as [Image.open] does; the
    [img.verify()] that the source then calls on the opened file adds no
    other failure than that of this test, and the files considered here
    are those on which it agrees with [Image.open]. *)
Definition validate_image_file (filename : string) : M unit :=
  w ← get;
  if Str.truthy (Path.dirname filename) then
    raise (ValueError "Please enter filename only")
  else if negb (path_exists w filename) then
    raise (FileNotFoundError ("File '" +:+ filename +:+ "' not found"))
  else if negb (Str.endswith_any (Str.lower filename) image_extensions) then
    raise (ValueError "Not a supported image file")
  else
    try_except (Image_open filename;; mret tt)
      (fun e => raise (ValueError ("Invalid image file: " +:+ str_exn e))).

Definition validate_office_file (filename : string) (extensions : list string)
    (file_type : string) : M unit :=
  w ← get;
  if Str.truthy (Path.dirname filename) then
    raise (ValueError "Please enter filename only")
  else if negb (path_exists w filename) then
    raise (FileNotFoundError ("File '" +:+ filename +:+ "' not found"))
  else if negb (Str.endswith_any (Str.lower filename) extensions) then
    raise (ValueError ("Not a supported " +:+ file_type +:+ " file"))
  else mret tt.

(** The failures of the validators under the names of the specification. *)
Definition PathNotAllowed : exn := ValueError "Please enter filename only".
Definition NotFound (filename : string) : exn :=
  FileNotFoundError ("File '" +:+ filename +:+ "' not found").
Definition UnsupportedExtension (e : exn) : Prop :=
  e = ValueError "Not a PDF file"
  \/ e = ValueError "Not a supported image file"
  \/ exists file_type, e = ValueError ("Not a supported " +:+ file_type +:+ " file").

(** ** Interactive collectors *)

(** The three collectors run the same loop around their validator.  Each
    iteration reads exactly one line, so the loop is written by recursion
    on the lines still to be read; running out of them is the [EOFError]
    of [input()]. *)
Fixpoint collect_loop (validate : string -> M unit) (lines : list string)
    (file_names : list string) : M (list string) :=
  match lines with
  | [] => raise EOFError
  | line :: rest =>
      modify (set_stdin rest);;
      let file_name := Str.strip line in
      if String.eqb (Str.lower file_name) "q" then mret file_names
      else
        file_names' ← try_except
          (validate file_name;;
           print (Validated file_name);;
           mret (file_names ++ [file_name]))
          (fun e => print (Rejected e);; mret file_names);
        collect_loop validate rest file_names'
  end.

Definition collect (validate : string -> M unit) : M (list string) :=
  w ← get; collect_loop validate (stdin w) [].

Definition get_file_names : M (list string) :=
  print (Say "Enter PDF filenames from current directory (type 'q' to finish):");;
  collect validate_pdf_file.

Definition get_image_files : M (list string) :=
  print (Say "Enter image filenames (type 'q' to finish):");;
  collect validate_image_file.

Definition get_office_files (extensions : list string) (file_type : string)
  : M (list string) :=
  print (Say ("Enter " +:+ file_type +:+ " filenames (type 'q' to finish):"));;
  collect (fun file_name => validate_office_file file_name extensions file_type).

(** ** Output filename *)

Fixpoint get_output_filename_loop (default_name : string) (lines : list string)
  : M string :=
  match lines with
  | [] => raise EOFError
  | line :: rest =>
      modify (set_stdin rest);;
      let name := Str.strip line in
      let name := if negb (Str.truthy name) then default_name else name in
      let name :=
        if negb (Str.endswith (Str.lower name) ".pdf") then name +:+ ".pdf"
        else name in
      if Str.truthy (Path.dirname name) then
        print PathRefused;;
        get_output_filename_loop default_name rest
      else mret name
  end.

Definition get_output_filename (default_name : string) : M string :=
  w ← get; get_output_filename_loop default_name (stdin w).

(** ** PDF merge driver *)

(** The [for] loop of [merge_pdfs]: the merge structure is the list of the
    pages appended so far. *)
Fixpoint merge_loop (file_paths : list string) (merger : list page)
    (error_count : Z) : M (list page * Z) :=
  match file_paths with
  | [] => mret (merger, error_count)
  | file_path :: rest =>
      s ← try_except
        (pages ← read_pdf file_path;
         print (Added file_path);;
         mret (merger ++ pages, error_count))
        (fun e => print (Failed file_path e);;
                  mret (merger, (error_count + 1)%Z));
      merge_loop rest s.1 s.2
  end.

(** [merger.close()] *)
Definition merger_close : M unit := mret tt.

Definition merge_pdfs (disk : write_outcome) (file_paths : list string)
    (output_filename : string) : M unit :=
  s ← merge_loop file_paths [] 0%Z;
  let merger := s.1 in
  let error_count := s.2 in
  try_finally
    (try_except
       (write_file OSError disk output_filename (PdfDoc merger);;
        print (Created output_filename);;
        print (Stats (Z.of_nat (length file_paths) - error_count) error_count))
       (fun e => print (Critical e)))
    merger_close.

Definition pdf_merger (disk : write_outcome) : M unit :=
  print (Say "=== PDF Merger ===");;
  files ← get_file_names;
  match files with
  | [] => print (Say "No valid PDF files selected. Returning to menu.")
  | _ =>
      output_name ← get_output_filename "merged.pdf";
      merge_pdfs disk files output_name
  end.

(** ** Blog to PDF driver *)

Definition pdf_styles : string := "
    <style>
        body { font-family: Arial, sans-serif; line-height: 1.6; margin: 2cm; }
        img { max-width: 100%; height: auto; }
        pre { background: #f4f4f4; padding: 10px; overflow: auto; }
        code { font-family: Monaco, Consolas, monospace; }
        h1, h2, h3 { color: #2c3e50; }
        a { color: #3498db; text-decoration: none; }
    </style>
    ".

Definition newline : string := String (ascii_of_N 10) EmptyString.

Definition add_pdf_styles (html_content : string) : string :=
  pdf_styles +:+ newline +:+ html_content.

(** What the network and the two libraries of the blog driver answer:
    [requests.get] gives a transport error or a status and a body;
    readability gives, or fails to give, the summary and the title of a
    body; wkhtmltopdf writes the output like any other writer. *)
Record web : Type := Web {
  http_get : string -> option (Z * string);
  doc_summary : string -> option string;
  doc_title : string -> option string;
  wkhtmltopdf : write_outcome
}.

(** [requests.get(url, timeout=10)] *)
Definition requests_get (net : web) (url : string) : M (Z * string) :=
  match http_get net url with
  | Some response => mret response
  | None => raise RequestException
  end.

(** [response.raise_for_status()]: 4xx and 5xx raise. *)
Definition raise_for_status (response : Z * string) : M unit :=
  if ((400 <=? response.1) && (response.1 <? 600))%Z
  then raise (HTTPError response.1) else mret tt.

Definition from_option {A} (e : exn) (o : option A) : M A :=
  match o with
  | Some a => mret a
  | None => raise e
  end.

(** The body of the [try] block of [convert_blog]. *)
Definition convert_blog_try (net : web) (url output_filename : string) : M unit :=
  print (Say "Downloading content...");;
  response ← requests_get net url;
  raise_for_status response;;
  print (Say "Processing content...");;
  content ← from_option Unparseable (doc_summary net response.2);
  print (Say "Generating PDF...");;
  let styled_content := add_pdf_styles content in
  write_file RenderError (wkhtmltopdf net) output_filename (PdfDoc [styled_content]);;
  print (Created output_filename);;
  title ← from_option Unparseable (doc_title net response.2);
  print (Title title).

Definition convert_blog (net : web) (url output_filename : string) : M unit :=
  try_except
    (convert_blog_try net url output_filename)
    (fun e =>
       print (ConversionFailed e);;
       w ← get;
       if path_exists w output_filename then os_remove output_filename
       else mret tt).

(** ** Image to PDF driver *)

(** The [for] loop of [convert_images_to_pdf]. *)
Fixpoint open_images (image_paths : list string) (images : list image)
  : M (list image) :=
  match image_paths with
  | [] => mret images
  | path :: rest =>
      images' ← try_except
        (img ← Image_open path;
         let img := if String.eqb (img_mode img) "RGBA"
                    then convert "RGB" img else img in
         print (Processed path);;
         mret (images ++ [img]))
        (fun e => print (Failed path e);; mret images);
      open_images rest images'
  end.

(** [images[0].save(output_filename, save_all=True,
    append_images=images[1:], resolution=100.0)].  The document written
    is given one entry for each image saved, which stands for the page or
    pages that the frames of that image make. *)
Definition save_all (disk : write_outcome) (output_filename : string)
    (first : image) (append_images : list image) : M unit :=
  write_file OSError disk output_filename
    (PdfDoc (img_path first :: map img_path append_images)).

(** The [finally] clause closes the opened images, which changes nothing
    in the world modelled here. *)
Definition convert_images_to_pdf (disk : write_outcome)
    (image_paths : list string) (output_filename : string) : M unit :=
  try_except
    (images ← open_images image_paths [];
     match images with
     | [] => print (Say "No valid images to convert")
     | first :: others =>
         save_all disk output_filename first others;;
         print (Created output_filename);;
         print (Count (length images))
     end)
    (fun e =>
       print (ConversionFailed e);;
       w ← get;
       if path_exists w output_filename then os_remove output_filename
       else mret tt).

(** ** Office to PDF driver *)

(** Is [p] a path below the directory [dir]? *)
Definition under (dir p : string) : bool := String.prefix (dir +:+ "/") p.

(** [tempfile.TemporaryDirectory()]; [name] is the fresh path that
    [mkdtemp] picks.  The object it returns owns the directory: the
    directory is removed by [cleanup], or else by the finalizer of the
    object when the object is released (see [release]). *)
Definition TemporaryDirectory (name : string) : M string :=
  modify (fun w => set_dirs ({[name]} ∪ dirs w) w);; mret name.

(** [temp_dir.cleanup()]: the directory and everything below it go. *)
Definition cleanup (temp_dir : string) : M unit :=
  modify (fun w =>
    World (stdin w) (stdout w)
          (filter (fun kv => under temp_dir kv.1 = false) (files w))
          (dirs w ∖ {[temp_dir]})).

(** The end of the life of a [TemporaryDirectory] object.  The driver
    keeps the object in a local variable only, so the object is released
    when the driver returns and its frame goes.  The finalizer of the
    object then removes the directory as [cleanup] would, unless [cleanup]
    was called before, which leaves the finalizer nothing to do.  (While
    an exception travels up, the traceback keeps the frame, and with it
    the object, alive: then there is no release yet.) *)
Definition release (temp_dir : string) : M unit :=
  w ← get;
  if bool_decide (temp_dir ∈ dirs w) then cleanup temp_dir else mret tt.

(** What the converter subprocess does with one input file: [None] when it
    exits with a non-zero status (or cannot be started), otherwise the
    files, by name, that it leaves in the output directory. *)
Definition converter : Type := string -> option (list (string * content)).

Definition store_in (dir : string) (fs : gmap string content)
    (written : list (string * content)) : gmap string content :=
  foldl (fun fs nc => <[Path.join dir nc.1 := nc.2]> fs) fs written.

(** [subprocess.run(['libreoffice', '--headless', '--convert-to', 'pdf',
    '--outdir', temp_dir, input_path], check=True)] *)
Definition run_libreoffice (soffice : converter) (temp_dir input_path : string)
  : M unit :=
  match soffice input_path with
  | None => raise CalledProcessError
  | Some written =>
      modify (fun w => set_files (store_in temp_dir (files w) written) w)
  end.

Definition convert_office_to_pdf (soffice : converter)
    (input_path temp_dir file_type : string) : M (option string) :=
  try_except
    (run_libreoffice soffice temp_dir input_path;;
     let base_name := (Path.splitext (Path.basename input_path)).1 +:+ ".pdf" in
     let generated_pdf := Path.join temp_dir base_name in
     w ← get;
     if path_exists w generated_pdf then mret (Some generated_pdf)
     else raise (RuntimeError (file_type +:+ " conversion failed")))
    (fun e => print (Failed input_path e);; mret None).

(** The [for] loop of [handle_office_conversion]. *)
Fixpoint office_loop (soffice : converter) (temp_dir file_type : string)
    (files : list string) (merger : list page) (error_count : Z)
  : M (list page * Z) :=
  match files with
  | [] => mret (merger, error_count)
  | file_path :: rest =>
      temp_pdf ← convert_office_to_pdf soffice file_path temp_dir file_type;
      s ← match temp_pdf with
          | Some p =>
              if Str.truthy p then
                try_except
                  (pages ← read_pdf p;
                   print (Added file_path);;
                   mret (merger ++ pages, error_count))
                  (fun e => print (Failed file_path e);;
                            mret (merger, (error_count + 1)%Z))
              else mret (merger, (error_count + 1)%Z)
          | None => mret (merger, (error_count + 1)%Z)
          end;
      office_loop soffice temp_dir file_type rest s.1 s.2
  end.

Definition handle_office_conversion (soffice : converter) (disk : write_outcome)
    (tmpname : string) (file_type : string) (extensions : list string)
    (default_output : string) : M unit :=
  print (Say ("=== " +:+ file_type +:+ " to PDF Converter ==="));;
  files ← get_office_files extensions file_type;
  match files with
  | [] => print (Say ("No valid " +:+ file_type
                       +:+ " files selected. Returning to menu."))
  | _ =>
      output_name ← get_output_filename default_output;
      temp_dir ← TemporaryDirectory tmpname;
      (s ← office_loop soffice temp_dir file_type files [] 0%Z;
       let merger := s.1 in
       let error_count := s.2 in
       if (length merger =? 0)%nat then
         print (Say "No valid PDFs generated. Exiting.")
       else
         try_finally
           (try_except
              (write_file OSError disk output_name (PdfDoc merger);;
               print (Created output_name);;
               print (Stats (Z.of_nat (length files) - error_count)
                            error_count))
              (fun e => print (Critical e)))
           (merger_close;; cleanup temp_dir));;
      release temp_dir
  end.

Definition word_to_pdf (soffice : converter) (disk : write_outcome)
    (tmpname : string) : M unit :=
  handle_office_conversion soffice disk tmpname
    "Word" [".docx"; ".doc"] "word_merged.pdf".

Definition excel_to_pdf (soffice : converter) (disk : write_outcome)
    (tmpname : string) : M unit :=
  handle_office_conversion soffice disk tmpname
    "Excel" [".xlsx"; ".xls"] "excel_merged.pdf".

Definition powerpoint_to_pdf (soffice : converter) (disk : write_outcome)
    (tmpname : string) : M unit :=
  handle_office_conversion soffice disk tmpname
    "PowerPoint" [".pptx"; ".ppt"] "powerpoint_merged.pdf".

(** The world before a run: the given input and files, nothing printed,
    no temporary directory. *)
Definition start (lines : list string) (fs : gmap string content) : world :=
  World lines [] fs ∅.

(** ** The features behind the menu entries *)

(** [input(prompt)]: the next line of the terminal. *)
Definition input : M string :=
  fun w => match stdin w with
           | [] => (Raise EOFError, w)
           | line :: rest => (Ok line, set_stdin rest w)
           end.

Definition image_to_pdf (disk : write_outcome) : M unit :=
  print (Say "=== Image to PDF Converter ===");;
  files ← get_image_files;
  match files with
  | [] => print (Say "No valid image files selected. Returning to menu.")
  | _ =>
      output_name ← get_output_filename "images.pdf";
      convert_images_to_pdf disk files output_name
  end.

(** [needle in hay] for strings. *)
Fixpoint occurs (needle hay : string) : bool :=
  String.prefix needle hay
  || match hay with
     | EmptyString => false
     | String _ hay' => occurs needle hay'
     end.

(** What the two URL libraries answer: [validators.url(url)] as a truth
    value, and the [path] and [netloc] fields of [urlparse(url)]. *)
Record url_lib : Type := UrlLib {
  validators_url : string -> bool;
  urlparse_path : string -> string;
  urlparse_netloc : string -> string
}.

Definition blog_indicators : list string :=
  ["/blog/"; "/post/"; "/article/"; "medium.com"; "wordpress.com"; "blogspot"].

Definition is_blog_url (lib : url_lib) (url : string) : bool :=
  let path := Str.lower (urlparse_path lib url) in
  existsb (fun indicator =>
             occurs indicator path || occurs indicator (urlparse_netloc lib url))
          blog_indicators.

(** The loop of [get_valid_url] reads one line per round, and a second one
    when it asks whether to continue with a URL that does not look like a
    blog post. *)
Fixpoint get_valid_url_loop (lib : url_lib) (lines : list string)
  : M (option string) :=
  match lines with
  | [] => raise EOFError
  | line :: rest =>
      modify (set_stdin rest);;
      let url := Str.strip line in
      if String.eqb (Str.lower url) "q" then mret None
      else if negb (validators_url lib url) then
        print (Say "Invalid URL format");;
        get_valid_url_loop lib rest
      else if negb (is_blog_url lib url) then
        print (Say "This doesn't appear to be a blog post URL");;
        match rest with
        | [] => raise EOFError
        | answer :: rest' =>
            modify (set_stdin rest');;
            let proceed := Str.lower answer in
            if negb (String.eqb proceed "y") then get_valid_url_loop lib rest'
            else mret (Some url)
        end
      else mret (Some url)
  end.

Definition get_valid_url (lib : url_lib) : M (option string) :=
  print (Say "Enter blog post URL (type 'q' to return):");;
  w ← get; get_valid_url_loop lib (stdin w).

Definition blog_to_pdf (lib : url_lib) (net : web) : M unit :=
  print (Say "=== Blog to PDF Converter ===");;
  url ← get_valid_url lib;
  match url with
  | Some u =>
      if Str.truthy u then
        output_name ← get_output_filename "blog_post.pdf";
        convert_blog net u output_name
      else print (Say "Invalid URL. Returning to menu.")
  | None => print (Say "Invalid URL. Returning to menu.")
  end.

(** ** Menus and the main program *)

(** [clear_screen()] runs a shell command on the terminal and leaves no
    trace in the world modelled here. *)
Definition clear_screen : M unit := mret tt.

Definition show_menu : M string :=
  clear_screen;;
  print (Say "=== PDF Master ===");;
  print (Say "1. Merge PDF Files");;
  print (Say "2. Blog to PDF Converter");;
  print (Say "3. Create PDF");;
  print (Say "4. Exit");;
  input.

Definition create_pdf_menu : M string :=
  clear_screen;;
  print (Say "=== Create PDF ===");;
  print (Say "1. Image to PDF");;
  print (Say "2. Word to PDF");;
  print (Say "3. Excel to PDF");;
  print (Say "4. PowerPoint to PDF");;
  print (Say "5. Return to Main Menu");;
  input.

(** What the outside world answers during one session: the disk when a
    driver writes its output, the converter subprocess, the name [mkdtemp]
    picks, the URL libraries and the network. *)
Record outside : Type := Outside {
  env_disk : write_outcome;
  env_soffice : converter;
  env_tmpname : string;
  env_urls : url_lib;
  env_net : web
}.

(** One round of the [while True] loop under menu entry 3, after the
    choice was read and found not to be [5]: the chosen feature, then the
    wait for Enter. *)
Definition create_pdf_round (env : outside) (sub_choice : string) : M unit :=
  (if String.eqb sub_choice "1" then image_to_pdf (env_disk env)
   else if String.eqb sub_choice "2" then
     word_to_pdf (env_soffice env) (env_disk env) (env_tmpname env)
   else if String.eqb sub_choice "3" then
     excel_to_pdf (env_soffice env) (env_disk env) (env_tmpname env)
   else if String.eqb sub_choice "4" then
     powerpoint_to_pdf (env_soffice env) (env_disk env) (env_tmpname env)
   else print (Say "Invalid choice!"));;
  input;;
  mret tt.

(** The two [while True] loops run until the user leaves them or the input
    ends; here they run for at most [fuel] rounds, and [None] says that
    the rounds were used up. *)
Fixpoint create_pdf_loop (env : outside) (fuel : nat) (w : world)
  : option (result unit * world) :=
  match fuel with
  | O => None
  | S fuel' =>
      match create_pdf_menu w with
      | (Raise e, w1) => Some (Raise e, w1)
      | (Ok sub_choice, w1) =>
          if String.eqb sub_choice "5" then Some (Ok tt, w1)
          else match create_pdf_round env sub_choice w1 with
               | (Raise e, w2) => Some (Raise e, w2)
               | (Ok _, w2) => create_pdf_loop env fuel' w2
               end
      end
  end.

Fixpoint main_loop (env : outside) (fuel : nat) (w : world)
  : option (result unit * world) :=
  match fuel with
  | O => None
  | S fuel' =>
      match show_menu w with
      | (Raise e, w1) => Some (Raise e, w1)
      | (Ok choice, w1) =>
          if String.eqb choice "4" then Some (print (Say "Exiting...") w1)
          else
            let feature :=
              if String.eqb choice "1" then
                Some (pdf_merger (env_disk env) w1)
              else if String.eqb choice "2" then
                Some (blog_to_pdf (env_urls env) (env_net env) w1)
              else if String.eqb choice "3" then
                create_pdf_loop env fuel' w1
              else Some (print (Say "Invalid choice!") w1) in
            match feature with
            | None => None
            | Some (Raise e, w2) => Some (Raise e, w2)
            | Some (Ok _, w2) =>
                match input w2 with
                | (Raise e, w3) => Some (Raise e, w3)
                | (Ok _, w3) => main_loop env fuel' w3
                end
            end
      end
  end.

(** * Vocabulary of the properties

    The definitions below are not part of the program: they name what the
    theorems say about it, and give the files and the outside worlds on
    which the examples run. *)

(** A line ends a collection when, stripped and lowered, it is [q]. *)
Definition is_quit (line : string) : bool :=
  String.eqb (Str.lower (Str.strip line)) "q".

(** Does the validator let the candidate through? *)
Definition accepts (validate : string -> M unit) (w : world) (name : string)
  : bool :=
  match (validate name w).1 with Ok _ => true | Raise _ => false end.

(** The line printed for one candidate. *)
Definition echo (validate : string -> M unit) (w : world) (name : string)
  : event :=
  match (validate name w).1 with
  | Ok _ => Validated name
  | Raise e => Rejected e
  end.

(** The line [get_file_names] prints before it starts reading. *)
Definition pdf_prompt : event :=
  Say "Enter PDF filenames from current directory (type 'q' to finish):".

(** A directory with a good PDF, a broken one, and a PDF named [q]. *)
Definition shelf : gmap string content :=
  {[ "a.pdf" := PdfDoc ["a1"; "a2"]; "b.pdf" := Bytes; "q" := PdfDoc ["x"] ]}.

(** The name the routine works with after reading a line: the line without
    surrounding whitespace, or the default when nothing is left of it. *)
Definition entered (default_name line : string) : string :=
  if Str.truthy (Str.strip line) then Str.strip line else default_name.

(** What [merger.append] finds at a path. *)
Definition appendable (fs : gmap string content) (path : string) : bool :=
  match fs !! path with Some (PdfDoc _) => true | _ => false end.

(** The pages it appends from there. *)
Definition pages_at (fs : gmap string content) (path : string) : list page :=
  match fs !! path with Some (PdfDoc pages) => pages | _ => [] end.

(** The line printed for one append. *)
Definition append_report (fs : gmap string content) (path : string) : event :=
  match fs !! path with
  | Some (PdfDoc _) => Added path
  | Some _ => Failed path PdfReadError
  | None => Failed path OSError
  end.

(** The number of paths of a list on which the append fails. *)
Definition failures (fs : gmap string content) (paths : list string) : nat :=
  length (List.filter (fun p => negb (appendable fs p)) paths).

(** What [merge_pdfs] prints after the loop and what it leaves on disk,
    by the way the final write goes. *)
Definition final_report (disk : write_outcome) (output_filename : string)
    (total failed : Z) : list event :=
  match disk with
  | Written => [Created output_filename; Stats (total - failed) failed]
  | _ => [Critical OSError]
  end.

Definition after_write (disk : write_outcome) (output_filename : string)
    (c : content) (fs : gmap string content) : gmap string content :=
  match disk with
  | Written => <[output_filename := c]> fs
  | CannotOpen => fs
  | Interrupted => <[output_filename := Bytes]> fs
  end.

(** A stage of the blog conversion fails: the fetch (transport error, or a
    4xx or 5xx status), the extraction of the summary, the rendering, or
    the extraction of the title that follows it. *)
Definition blog_fails (net : web) (url : string) : Prop :=
  match http_get net url with
  | None => True
  | Some (status, text) =>
      (400 <= status < 600)%Z
      \/ doc_summary net text = None
      \/ wkhtmltopdf net <> Written
      \/ doc_title net text = None
  end.

(** A site that answers every request with status 404. *)
Definition not_found_site : web :=
  Web (fun _ => Some (404%Z, "<html>Not Found</html>"))
      (fun text => Some text) (fun _ => Some "Not Found") Written.

(** What the loop makes of one path: nothing when PIL cannot open it, the
    image otherwise, in mode [RGB] when it was opened in mode [RGBA] and
    in the mode it was opened in when not. *)
Definition opened (fs : gmap string content) (path : string) : option image :=
  match fs !! path with
  | Some (Picture mode) =>
      Some (Image path (if String.eqb mode "RGBA" then "RGB" else mode))
  | _ => None
  end.

(** The line printed for one image. *)
Definition open_report (fs : gmap string content) (path : string) : event :=
  match fs !! path with
  | Some (Picture _) => Processed path
  | Some _ => Failed path UnidentifiedImageError
  | None => Failed path OSError
  end.

(** A directory with a colour picture with alpha, a grey picture with
    alpha, and a text file. *)
Definition album : gmap string content :=
  {[ "photo.png" := Picture "RGBA"; "scan.png" := Picture "LA";
     "notes.txt" := Bytes ]}.

(** A converter that fails on every input. *)
Definition broken_soffice : converter := fun _ => None.

(** A converter that turns [name.ext] into a one-page [name.pdf]. *)
Definition working_soffice : converter := fun input_path =>
  Some [((Path.splitext (Path.basename input_path)).1 +:+ ".pdf",
         PdfDoc [input_path])].

(** A directory with two Word documents. *)
Definition desk : gmap string content :=
  {[ "a.docx" := Bytes; "b.doc" := Bytes ]}.

(** The lines [get_image_files] and [get_office_files] print before they
    start reading. *)
Definition image_prompt : event :=
  Say "Enter image filenames (type 'q' to finish):".

Definition office_prompt (file_type : string) : event :=
  Say ("Enter " +:+ file_type +:+ " filenames (type 'q' to finish):").

(** The name [get_output_filename] settles on for a name it holds: the
    name itself when it ends in [.pdf] in some letter case, the name with
    [.pdf] appended otherwise. *)
Definition suffixed (name : string) : string :=
  if Str.endswith (Str.lower name) ".pdf" then name else name +:+ ".pdf".

(** A line that [get_output_filename] turns down: the name it settles on
    has a directory separator. *)
Definition refused (default_name line : string) : bool :=
  Str.contains "/" (suffixed (entered default_name line)).

(** Does PIL open what is at the path? *)
Definition openable (fs : gmap string content) (path : string) : bool :=
  match fs !! path with Some (Picture _) => true | _ => false end.

(** URL libraries for the examples: a URL is well-formed when it starts
    with [http], and the whole URL serves as path and as host. *)
Definition plain_urls : url_lib :=
  UrlLib (String.prefix "http") (fun url => url) (fun url => url).

(** An outside world in which everything works. *)
Definition fair_weather : outside :=
  Outside Written working_soffice "/tmp/tmpsession" plain_urls
    (Web (fun _ => Some (200%Z, "<html>post</html>"))
         (fun _ => Some "<p>post</p>") (fun _ => Some "A post") Written).

(** A computation that may read lines but never puts any back. *)
Definition consumes {A} (m : M A) : Prop :=
  forall w r w', m w = (r, w') -> (length (stdin w') <= length (stdin w))%nat.

(** What the two menus print before they read the choice. *)
Definition main_menu_lines : list event :=
  [Say "=== PDF Master ==="; Say "1. Merge PDF Files";
   Say "2. Blog to PDF Converter"; Say "3. Create PDF"; Say "4. Exit"].

Definition create_menu_lines : list event :=
  [Say "=== Create PDF ==="; Say "1. Image to PDF"; Say "2. Word to PDF";
   Say "3. Excel to PDF"; Say "4. PowerPoint to PDF";
   Say "5. Return to Main Menu"].

(** * Properties *)

(** ** Strings and paths *)

Section StringFacts.

Lemma rfind_lower_bound s c : (-1 <= Str.rfind s c)%Z.
Proof.
  induction s as [|a s IH]; simpl; [lia|].
  destruct (Z.leb_spec 0 (Str.rfind s c)); [lia|].
  destruct (Ascii.eqb a c); lia.
Qed.

Lemma rfind_contains s c :
  Str.contains c s = true -> (0 <= Str.rfind s c)%Z.
Proof.
  induction s as [|a s IH]; simpl; [discriminate|].
  intros H. destruct (Z.leb_spec 0 (Str.rfind s c)); [lia|].
  destruct (Ascii.eqb a c); [lia|]. simpl in H. apply IH in H. lia.
Qed.

Lemma rfind_absent s c :
  Str.contains c s = false -> Str.rfind s c = (-1)%Z.
Proof.
  induction s as [|a s IH]; simpl; [reflexivity|].
  intros H. apply orb_false_iff in H as [Ha Hs].
  rewrite (IH Hs), Ha. reflexivity.
Qed.

Lemma rstrip_by_empty c s :
  Str.rstrip_by (Ascii.eqb c) s = EmptyString ->
  s = Str.replicate (String.length s) c.
Proof.
  induction s as [|a s IH]; simpl; [reflexivity|].
  destruct (Str.rstrip_by (Ascii.eqb c) s) eqn:E; [|discriminate].
  destruct (Ascii.eqb c a) eqn:Ea; [|discriminate].
  intros _. apply Ascii.eqb_eq in Ea. subst a. f_equal. apply IH. reflexivity.
Qed.

(** [os.path.dirname(p)] is a non-empty string exactly when [p] contains
    the separator. *)
Lemma dirname_truthy p :
  Str.truthy (Path.dirname p) = Str.contains Path.sep p.
Proof.
  unfold Path.dirname.
  destruct (Str.contains Path.sep p) eqn:C.
  - pose proof (rfind_contains _ _ C) as Hr.
    unfold Str.slice_to.
    destruct p as [|a p]; [discriminate|].
    replace (Z.to_nat (Str.rfind (String a p) Path.sep + 1))
      with (S (Z.to_nat (Str.rfind (String a p) Path.sep))) by lia.
    cbn [Str.take].
    set (head := String a _).
    change (Str.truthy head) with true. cbn [andb].
    destruct (String.eqb head (Str.replicate (String.length head) Path.sep)) eqn:E;
      cbn [negb]; [reflexivity|].
    unfold Str.truthy.
    destruct (Str.rstrip_by (Ascii.eqb Path.sep) head) eqn:R; [|reflexivity].
    apply rstrip_by_empty in R. rewrite <- R in E.
    rewrite String.eqb_refl in E. discriminate.
  - rewrite (rfind_absent _ _ C). reflexivity.
Qed.

Lemma lower_app a b : Str.lower (a +:+ b) = Str.lower a +:+ Str.lower b.
Proof. induction a as [|c a IH]; simpl; [reflexivity|]. by rewrite IH. Qed.

Lemma endswith_app a b : Str.endswith (a +:+ b) b = true.
Proof.
  induction a as [|c a IH]; simpl.
  - destruct b; simpl; rewrite ?Ascii.eqb_refl, ?String.eqb_refl; reflexivity.
  - rewrite IH. apply orb_true_r.
Qed.

Lemma endswith_lower_pdf name :
  Str.endswith (Str.lower (name +:+ ".pdf")) ".pdf" = true.
Proof. rewrite lower_app. apply endswith_app. Qed.

Lemma contains_app c a b :
  Str.contains c (a +:+ b) = Str.contains c a || Str.contains c b.
Proof.
  induction a as [|x a IH]; simpl; [reflexivity|]. by rewrite IH, orb_assoc.
Qed.


End StringFacts.



(** ** Filename validators *)

Ltac unfold_M :=
  unfold print, from_option in *;
  unfold mbind, M_bind, mret, M_ret, raise, try_except, try_finally,
    get, modify in *;
  cbv beta in *.

(** A bind runs its first part and goes on with the result, or stops at
    what the first part raised. *)
Lemma bind_run {A B} (m : M A) (k : A -> M B) (w : world) :
  (m ≫= k) w
  = match m w with
    | (Ok a, w') => k a w'
    | (Raise e, w') => (Raise e, w')
    end.
Proof. reflexivity. Qed.

(** C6. A candidate that contains the directory separator is rejected by
    each of the three validators with [PathNotAllowed], whatever the files
    on disk and whatever the accepted extensions of the office category;
    the world is left as it was. *)
Theorem validators_reject_paths (w : world) (filename : string)
    (extensions : list string) (file_type : string) :
  Str.contains "/" filename = true ->
  validate_pdf_file filename w = (Raise PathNotAllowed, w)
  /\ validate_image_file filename w = (Raise PathNotAllowed, w)
  /\ validate_office_file filename extensions file_type w
     = (Raise PathNotAllowed, w).
Proof.
  intros H.
  unfold validate_pdf_file, validate_image_file, validate_office_file.
  unfold_M. rewrite dirname_truthy. change Path.sep with "/"%char.
  rewrite H. repeat split.
Qed.

Lemma validators_reject_paths_witness :
  Str.contains "/" "docs/report.pdf" = true
  /\ validate_pdf_file "docs/report.pdf"
       (start [] {[ "report.pdf" := PdfDoc ["p1"] ]})
     = (Raise PathNotAllowed, start [] {[ "report.pdf" := PdfDoc ["p1"] ]}).
Proof.
  split; [reflexivity|].
  apply (validators_reject_paths _ "docs/report.pdf" [] ""). reflexivity.
Defined.

(** C5. A candidate without directory separator that names nothing on disk
    is rejected by each of the three validators with [NotFound], which is
    none of the [UnsupportedExtension] failures; this holds whatever the
    extension of the candidate, so in particular when the extension is an
    accepted one. *)
Theorem missing_file_is_not_found (w : world) (filename : string)
    (extensions : list string) (file_type : string) :
  Str.contains "/" filename = false ->
  path_exists w filename = false ->
  validate_pdf_file filename w = (Raise (NotFound filename), w)
  /\ validate_image_file filename w = (Raise (NotFound filename), w)
  /\ validate_office_file filename extensions file_type w
     = (Raise (NotFound filename), w)
  /\ ~ UnsupportedExtension (NotFound filename).
Proof.
  intros Hsep Hex.
  unfold validate_pdf_file, validate_image_file, validate_office_file.
  unfold_M. rewrite dirname_truthy. change Path.sep with "/"%char.
  rewrite Hsep, Hex. repeat split.
  unfold UnsupportedExtension, NotFound.
  intros [H|[H|[ft H]]]; discriminate H.
Qed.

Lemma missing_file_is_not_found_witness :
  Str.endswith (Str.lower "slides.PPTX") ".pptx" = true
  /\ validate_office_file "slides.PPTX" [".pptx"; ".ppt"] "PowerPoint"
       (start [] {[ "other.pptx" := Bytes ]})
     = (Raise (NotFound "slides.PPTX"), start [] {[ "other.pptx" := Bytes ]}).
Proof.
  split; [reflexivity|].
  apply (missing_file_is_not_found _ "slides.PPTX" [".pptx"; ".ppt"] "PowerPoint");
    vm_compute; reflexivity.
Defined.

(** ** Interactive collectors *)

Section Collector.

Variable validate : string -> M unit.

(** No name that lowers to [q] is ever put on the list, whatever the
    validator says. *)
Lemma collect_loop_no_q lines : forall acc w l w',
  collect_loop validate lines acc w = (Ok l, w') ->
  Forall (fun x => Str.lower x <> "q") acc ->
  Forall (fun x => Str.lower x <> "q") l.
Proof.
  induction lines as [|line rest IH]; intros acc w l w' H Hacc.
  - discriminate H.
  - cbn [collect_loop] in H. unfold_M.
    destruct (String.eqb (Str.lower (Str.strip line)) "q") eqn:Q.
    + simpl in H. by inversion H; subst.
    + apply String.eqb_neq in Q. simpl in H.
      destruct (validate (Str.strip line) (set_stdin rest w)) as [[[]|e] w1];
        apply IH in H; auto.
      apply Forall_app; split; auto.
  Qed.

(** The quit line returns the list as it stands and consumes that line
    only; the validator is not consulted. *)
Lemma collect_loop_quit line rest acc w :
  is_quit line = true ->
  collect_loop validate (line :: rest) acc w = (Ok acc, set_stdin rest w).
Proof.
  unfold is_quit. intros Q. cbn [collect_loop]. unfold_M. by rewrite Q.
Qed.

(** The validators only look at the files: they leave the world as it is,
    and their verdict does not depend on what was read or printed. *)
Hypothesis validate_pure : forall n w, (validate n w).2 = w.
Hypothesis validate_fs : forall n w1 w2,
  files w1 = files w2 -> dirs w1 = dirs w2 ->
  (validate n w1).1 = (validate n w2).1.

Lemma accepts_fs w1 w2 names :
  files w1 = files w2 -> dirs w1 = dirs w2 ->
  List.filter (accepts validate w1) names = List.filter (accepts validate w2) names.
Proof.
  intros Hf Hd. apply List.filter_ext. intros n. unfold accepts.
  by rewrite (validate_fs n w1 w2).
Qed.

Lemma echo_fs w1 w2 names :
  files w1 = files w2 -> dirs w1 = dirs w2 ->
  map (echo validate w1) names = map (echo validate w2) names.
Proof.
  intros Hf Hd. apply List.map_ext. intros n. unfold echo.
  by rewrite (validate_fs n w1 w2).
Qed.

Lemma collect_loop_step line rest acc w :
  is_quit line = false ->
  collect_loop validate (line :: rest) acc w
  = collect_loop validate rest
      (if accepts validate w (Str.strip line) then acc ++ [Str.strip line] else acc)
      (World rest (stdout w ++ [echo validate w (Str.strip line)]) (files w) (dirs w)).
Proof.
  unfold is_quit. intros Q. cbn [collect_loop]. unfold_M. rewrite Q.
  unfold accepts, echo.
  rewrite (validate_fs (Str.strip line) w (set_stdin rest w)) by reflexivity.
  pose proof (validate_pure (Str.strip line) (set_stdin rest w)) as Hp.
  destruct (validate (Str.strip line) (set_stdin rest w)) as [[[]|e] w1];
    simpl in Hp; subst w1; reflexivity.
Qed.

Lemma collect_loop_stops pre : forall line rest acc w,
  Forall (fun l => is_quit l = false) pre ->
  is_quit line = true ->
  collect_loop validate (pre ++ line :: rest) acc w
  = (Ok (acc ++ List.filter (accepts validate w) (map Str.strip pre)),
     World rest (stdout w ++ map (echo validate w) (map Str.strip pre))
           (files w) (dirs w)).
Proof.
  induction pre as [|l pre IH]; intros line rest acc w Hpre Hq.
  - change ([] ++ line :: rest) with (line :: rest).
    rewrite collect_loop_quit by done.
    by rewrite !app_nil_r.
  - apply Forall_cons in Hpre as [Hl Hpre].
    change ((l :: pre) ++ line :: rest) with (l :: (pre ++ line :: rest)).
    rewrite collect_loop_step by done.
    rewrite IH by done. cbn [stdout files dirs map List.filter].
    set (w1 := World _ _ _ _).
    rewrite (accepts_fs w1 w), (echo_fs w1 w) by reflexivity.
    f_equal.
    + f_equal. destruct (accepts validate w (Str.strip l)); by rewrite <- ?app_assoc.
    + by rewrite <- app_assoc.
Qed.

Lemma collect_loop_eof lines : forall acc w,
  Forall (fun l => is_quit l = false) lines ->
  (collect_loop validate lines acc w).1 = Raise EOFError.
Proof.
  induction lines as [|l lines IH]; intros acc w H.
  - reflexivity.
  - apply Forall_cons in H as [Hl H].
    rewrite collect_loop_step by done. by apply IH.
Qed.

End Collector.

Ltac case_validator :=
  repeat match goal with
         | |- context [if ?b then _ else _] => destruct b
         end;
  cbv beta;
  repeat match goal with
         | H : files _ = files _ |- _ => rewrite H
         end;
  repeat match goal with
         | |- context [match ?m !! ?k with _ => _ end] =>
             destruct (m !! k) as [[]|]
         end.

Lemma validate_pdf_file_pure n w : (validate_pdf_file n w).2 = w.
Proof.
  unfold validate_pdf_file, read_pdf. unfold_M. by case_validator.
Qed.

Lemma validate_pdf_file_fs n w1 w2 :
  files w1 = files w2 -> dirs w1 = dirs w2 ->
  (validate_pdf_file n w1).1 = (validate_pdf_file n w2).1.
Proof.
  intros Hf Hd. unfold validate_pdf_file, read_pdf, path_exists. unfold_M.
  rewrite Hf, Hd. by case_validator.
Qed.

Lemma validate_image_file_pure n w : (validate_image_file n w).2 = w.
Proof.
  unfold validate_image_file, Image_open. unfold_M. by case_validator.
Qed.

Lemma validate_image_file_fs n w1 w2 :
  files w1 = files w2 -> dirs w1 = dirs w2 ->
  (validate_image_file n w1).1 = (validate_image_file n w2).1.
Proof.
  intros Hf Hd. unfold validate_image_file, Image_open, path_exists. unfold_M.
  rewrite Hf, Hd. by case_validator.
Qed.

Lemma validate_office_file_pure exts ft n w :
  (validate_office_file n exts ft w).2 = w.
Proof.
  unfold validate_office_file. unfold_M. by case_validator.
Qed.

Lemma validate_office_file_fs exts ft n w1 w2 :
  files w1 = files w2 -> dirs w1 = dirs w2 ->
  (validate_office_file n exts ft w1).1 = (validate_office_file n exts ft w2).1.
Proof.
  intros Hf Hd. unfold validate_office_file, path_exists. unfold_M.
  rewrite Hf, Hd. by case_validator.
Qed.

(** C4, as amended.  The PDF collector stops exactly at the first line
    that, stripped of surrounding whitespace and lowered, is [q]: it then
    returns, in order, the stripped earlier lines that [validate_pdf_file]
    accepts, having printed one line of confirmation or of rejection (with
    the reason) for each earlier line, and leaves the later lines unread.
    Without such a line it never returns a list: reading past the end of
    the input raises. *)
Theorem get_file_names_stops_at_q (w : world) :
  (forall pre line rest,
     stdin w = pre ++ line :: rest ->
     Forall (fun l => is_quit l = false) pre ->
     is_quit line = true ->
     get_file_names w
     = (Ok (List.filter (accepts validate_pdf_file w) (map Str.strip pre)),
        World rest
              (stdout w ++ pdf_prompt
                 :: map (echo validate_pdf_file w) (map Str.strip pre))
              (files w) (dirs w)))
  /\ (Forall (fun l => is_quit l = false) (stdin w) ->
      (get_file_names w).1 = Raise EOFError).
Proof.
  split.
  - intros pre line rest Hin Hpre Hq.
    unfold get_file_names, collect. unfold_M. cbn [stdin set_stdout].
    rewrite Hin.
    rewrite (collect_loop_stops validate_pdf_file validate_pdf_file_pure
               validate_pdf_file_fs) by done.
    rewrite (accepts_fs validate_pdf_file validate_pdf_file_fs (set_stdout _ w) w),
            (echo_fs validate_pdf_file validate_pdf_file_fs (set_stdout _ w) w)
      by reflexivity.
    cbn [stdout files dirs set_stdout app].
    by rewrite <- app_assoc.
  - intros H. unfold get_file_names, collect. unfold_M. cbn [stdin set_stdout].
    by apply (collect_loop_eof validate_pdf_file validate_pdf_file_pure
                validate_pdf_file_fs).
Qed.

Lemma get_file_names_stops_at_q_witness :
  get_file_names (start ["quit"; " a.pdf"; "b.pdf"; "Q "; "c.pdf"] shelf)
  = (Ok ["a.pdf"],
     World ["c.pdf"]
           [pdf_prompt;
            Rejected (FileNotFoundError "File 'quit' not found");
            Validated "a.pdf";
            Rejected PdfReadError]
           shelf ∅).
Proof.
  destruct (get_file_names_stops_at_q
              (start ["quit"; " a.pdf"; "b.pdf"; "Q "; "c.pdf"] shelf))
    as [H _].
  rewrite (H ["quit"; " a.pdf"; "b.pdf"] "Q " ["c.pdf"]).
  - vm_compute. reflexivity.
  - reflexivity.
  - repeat constructor.
  - reflexivity.
Defined.

(** C4, as the specification words it: the loop would stop exactly at a
    line that lowers to [quit].  On the input [quit], [a.pdf], [q] the
    first line is not taken as the end: it is validated and rejected, the
    second line is collected, and the loop stops at the third. *)
Lemma quit_word_does_not_stop :
  ~ (forall w pre line rest,
       stdin w = pre ++ line :: rest ->
       Forall (fun l => Str.lower l <> "quit") pre ->
       Str.lower line = "quit" ->
       exists l out,
         get_file_names w = (Ok l, World rest out (files w) (dirs w))).
Proof.
  intros H.
  destruct (H (start ["quit"; "a.pdf"; "q"] shelf) [] "quit" ["a.pdf"; "q"])
    as (l & out & E); [reflexivity|constructor|reflexivity|].
  vm_compute in E. discriminate E.
Qed.

(** C10. Whatever is typed, the list that any of the three collectors
    returns holds no entry that lowers to [q]; in particular neither [q]
    nor [Q] can be selected, even when a file of that name exists. *)
Theorem collectors_never_return_q (w : world) (extensions : list string)
    (file_type : string) (l : list string) (w' : world) :
  get_file_names w = (Ok l, w')
  \/ get_image_files w = (Ok l, w')
  \/ get_office_files extensions file_type w = (Ok l, w') ->
  Forall (fun x => Str.lower x <> "q") l /\ ("q" ∉ l) /\ ("Q" ∉ l).
Proof.
  intros H.
  assert (Forall (fun x => Str.lower x <> "q") l) as HF.
  { unfold get_file_names, get_image_files, get_office_files, collect in H.
    unfold_M.
    destruct H as [H|[H|H]]; eapply collect_loop_no_q in H; auto. }
  split; [exact HF|].
  rewrite Forall_forall in HF.
  split; intros Hin; apply HF in Hin; by apply Hin.
Qed.

Lemma collectors_never_return_q_witness :
  Forall (fun x => Str.lower x <> "q") ["a.pdf"]
  /\ ("q" ∉ ["a.pdf"]) /\ ("Q" ∉ ["a.pdf"]).
Proof.
  apply (collectors_never_return_q
           (start ["a.pdf"; "q.pdf"; "Q"; "b.pdf"] shelf) [] "" ["a.pdf"]
           (World ["b.pdf"]
              [pdf_prompt; Validated "a.pdf";
               Rejected (FileNotFoundError "File 'q.pdf' not found")]
              shelf ∅)).
  left. vm_compute. reflexivity.
Defined.

(** ** Output filename *)

Lemma get_output_filename_loop_accepts default_name lines :
  forall w out w',
    get_output_filename_loop default_name lines w = (Ok out, w') ->
    exists pre line,
      lines = pre ++ line :: stdin w'
      /\ out = (if Str.endswith (Str.lower (entered default_name line)) ".pdf"
                then entered default_name line
                else entered default_name line +:+ ".pdf")
      /\ Str.contains "/" out = false.
Proof.
  induction lines as [|l rest IH]; intros w out w' H.
  - discriminate H.
  - cbn [get_output_filename_loop] in H. unfold_M. cbn zeta in H.
    rewrite dirname_truthy in H. change Path.sep with "/"%char in H.
    assert ((if negb (Str.truthy (Str.strip l)) then default_name
             else Str.strip l) = entered default_name l) as E.
    { unfold entered. by destruct (Str.truthy (Str.strip l)). }
    rewrite !E in H. clear E.
    set (name := if negb _ then _ else _) in H.
    destruct (Str.contains "/" name) eqn:C.
    + simpl in H. apply IH in H as (pre & line & -> & Hout & Hc).
      by exists (l :: pre), line.
    + simpl in H. inversion H; subst out w'. clear H.
      exists [], l. cbn [stdin set_stdin app]. repeat split; [|exact C].
      subst name. by destruct (Str.endswith _ _).
Qed.

Lemma get_output_filename_loop_step default_name line rest w :
  get_output_filename_loop default_name (line :: rest) w
  = if refused default_name line
    then get_output_filename_loop default_name rest
           (World rest (stdout w ++ [PathRefused]) (files w) (dirs w))
    else (Ok (suffixed (entered default_name line)), set_stdin rest w).
Proof.
  cbn [get_output_filename_loop]. unfold_M. cbn zeta.
  rewrite dirname_truthy. change Path.sep with "/"%char.
  assert ((if negb (Str.truthy (Str.strip line)) then default_name
           else Str.strip line) = entered default_name line) as E.
  { unfold entered. by destruct (Str.truthy (Str.strip line)). }
  rewrite !E. unfold refused, suffixed.
  destruct (Str.endswith (Str.lower (entered default_name line)) ".pdf");
    cbn [negb];
    match goal with
    | |- context [if Str.contains "/" ?n then _ else _] =>
        destruct (Str.contains "/" n)
    end; reflexivity.
Qed.

Lemma get_output_filename_loop_run default_name pre : forall line rest w,
  Forall (fun l => refused default_name l = true) pre ->
  refused default_name line = false ->
  get_output_filename_loop default_name (pre ++ line :: rest) w
  = (Ok (suffixed (entered default_name line)),
     World rest (stdout w ++ replicate (length pre) PathRefused)
           (files w) (dirs w)).
Proof.
  induction pre as [|l pre IH]; intros line rest w Hpre Hline.
  - change ([] ++ line :: rest) with (line :: rest).
    rewrite get_output_filename_loop_step, Hline.
    cbn [length replicate]. by rewrite app_nil_r.
  - apply Forall_cons in Hpre as [Hl Hpre].
    change ((l :: pre) ++ line :: rest) with (l :: (pre ++ line :: rest)).
    rewrite get_output_filename_loop_step, Hl, IH by done.
    cbn [stdout files dirs length replicate]. by rewrite <- app_assoc.
Qed.

(** Appending the suffix brings in no separator: a line is turned down
    exactly when the name entered has one. *)
Lemma refused_entered default_name line :
  refused default_name line = Str.contains "/" (entered default_name line).
Proof.
  unfold refused, suffixed.
  destruct (Str.endswith (Str.lower (entered default_name line)) ".pdf");
    [reflexivity|].
  rewrite contains_app. cbn. by rewrite !orb_false_r.
Qed.

(** C7. Take the first line of the input whose name has no directory
    separator, with [name] that line without surrounding whitespace (the
    default when that is empty); the lines before it are refused, one
    refusal printed for each.  Then the routine accepts and returns:
    [name] itself when [name] ends in [.pdf] in any letter case, and
    [name] followed by one [.pdf] when it does not.  Conversely, every name
    the routine returns is made from one of the lines read in one of these
    two ways, and it ends in [.pdf], so that it would not be suffixed
    again. *)
Theorem get_output_filename_suffix (default_name : string) (w : world) :
  (forall pre line rest,
     stdin w = pre ++ line :: rest ->
     Forall (fun l => Str.contains "/" (entered default_name l) = true) pre ->
     Str.contains "/" (entered default_name line) = false ->
     let name := entered default_name line in
     let w' := World rest (stdout w ++ replicate (length pre) PathRefused)
                 (files w) (dirs w) in
     (Str.endswith (Str.lower name) ".pdf" = true ->
      get_output_filename default_name w = (Ok name, w'))
     /\ (Str.endswith (Str.lower name) ".pdf" = false ->
         get_output_filename default_name w = (Ok (name +:+ ".pdf"), w')))
  /\ (forall out w',
        get_output_filename default_name w = (Ok out, w') ->
        exists pre line,
          stdin w = pre ++ line :: stdin w'
          /\ (Str.endswith (Str.lower (entered default_name line)) ".pdf" = true ->
              out = entered default_name line)
          /\ (Str.endswith (Str.lower (entered default_name line)) ".pdf" = false ->
              out = entered default_name line +:+ ".pdf")
          /\ Str.endswith (Str.lower out) ".pdf" = true
          /\ (if Str.endswith (Str.lower out) ".pdf" then out else out +:+ ".pdf")
             = out).
Proof.
  split.
  - intros pre line rest Hin Hpre Hline. cbv zeta.
    assert (get_output_filename default_name w
            = (Ok (suffixed (entered default_name line)),
               World rest (stdout w ++ replicate (length pre) PathRefused)
                     (files w) (dirs w))) as Hrun.
    { unfold get_output_filename. rewrite bind_run. unfold get.
      cbv beta iota. rewrite Hin. apply get_output_filename_loop_run.
      - eapply Forall_impl; [exact Hpre|]. intros l Hl.
        by rewrite refused_entered.
      - by rewrite refused_entered. }
    rewrite Hrun. unfold suffixed.
    split; intros E; by rewrite E.
  - unfold get_output_filename. unfold_M. intros out w' H.
    apply get_output_filename_loop_accepts in H as (pre & line & Hin & Hout & _).
    exists pre, line. split; [exact Hin|].
    assert (Str.endswith (Str.lower out) ".pdf" = true) as Hend.
    { subst out.
      destruct (Str.endswith (Str.lower (entered default_name line)) ".pdf")
        eqn:E; [exact E|].
      apply endswith_lower_pdf. }
    rewrite Hend.
    split; [intros E; by rewrite E in Hout|].
    split; [intros E; by rewrite E in Hout|].
    by split.
Qed.

(** A run that takes the appending branch after one refusal, and a run
    that takes the other branch. *)
Lemma get_output_filename_suffix_witness :
  get_output_filename "merged.pdf" (start ["out/put"; "  report "; "x"] ∅)
  = (Ok "report.pdf", World ["x"] [PathRefused] ∅ ∅)
  /\ get_output_filename "merged.pdf" (start ["  Report.PDF "; "x"] ∅)
     = (Ok "Report.PDF", World ["x"] [] ∅ ∅).
Proof.
  split.
  - destruct (get_output_filename_suffix "merged.pdf"
                (start ["out/put"; "  report "; "x"] ∅)) as [H _].
    destruct (H ["out/put"] "  report " ["x"]) as [_ Happend];
      [reflexivity|repeat constructor|reflexivity|].
    apply Happend. reflexivity.
  - destruct (get_output_filename_suffix "merged.pdf"
                (start ["  Report.PDF "; "x"] ∅)) as [H _].
    destruct (H [] "  Report.PDF " ["x"]) as [Hkeep _];
      [reflexivity|constructor|reflexivity|].
    apply Hkeep. reflexivity.
Defined.

(** ** PDF merge driver *)

Lemma failures_successes fs paths :
  length paths
  = (length (List.filter (appendable fs) paths) + failures fs paths)%nat.
Proof.
  unfold failures. induction paths as [|p paths IH]; simpl; [reflexivity|].
  destruct (appendable fs p); simpl; lia.
Qed.

(** The loop visits every path in order, whatever happened to the earlier
    ones: it appends the pages of the files it can read, counts the
    others, prints one line for each and leaves the files alone. *)
Lemma merge_loop_run file_paths : forall merger error_count w,
  merge_loop file_paths merger error_count w
  = (Ok (merger ++ flat_map (pages_at (files w)) file_paths,
         (error_count + Z.of_nat (failures (files w) file_paths))%Z),
     set_stdout (stdout w ++ map (append_report (files w)) file_paths) w).
Proof.
  induction file_paths as [|p paths IH]; intros merger ec w.
  - cbn [merge_loop]. unfold_M. cbn [flat_map failures map].
    rewrite !app_nil_r, Z.add_0_r. by destruct w.
  - cbn [merge_loop]. unfold read_pdf. unfold_M.
    unfold failures in *. cbn [flat_map map List.filter].
    unfold pages_at at 1, append_report at 1, appendable at 1.
    destruct (files w !! p) as [[pages|mode|]|]; cbn [negb length fst snd];
      rewrite IH; cbn [files stdout set_stdout];
      rewrite <- ?app_assoc; cbn [app];
      first [reflexivity | do 3 f_equal; lia].
Qed.

Lemma merge_pdfs_run disk file_paths output_filename w :
  merge_pdfs disk file_paths output_filename w
  = (Ok tt,
     World (stdin w)
       (stdout w ++ map (append_report (files w)) file_paths
          ++ final_report disk output_filename
               (Z.of_nat (length file_paths))
               (Z.of_nat (failures (files w) file_paths)))
       (after_write disk output_filename
          (PdfDoc (flat_map (pages_at (files w)) file_paths)) (files w))
       (dirs w)).
Proof.
  unfold merge_pdfs, merger_close, write_file. unfold_M.
  rewrite merge_loop_run. cbn [fst snd app]. rewrite Z.add_0_l.
  destruct disk; unfold_M; cbn [set_files set_stdout stdin stdout files dirs
                                  final_report after_write];
    by rewrite <- ?app_assoc.
Qed.

(** C3. For every input list, every file of the list is attempted, in
    order, and gets its line in the transcript, an append that fails being
    counted and not stopping the loop; the merged document holds the pages
    of the files that could be appended, in order; and the report printed
    after a successful write gives as succeeded the length of the input
    list less the number of failed appends, and as failed that number. *)
Theorem merge_pdfs_counts (file_paths : list string) (output_filename : string)
    (w : world) :
  let w' := (merge_pdfs Written file_paths output_filename w).2 in
  let total := Z.of_nat (length file_paths) in
  let failed := Z.of_nat (failures (files w) file_paths) in
  (merge_pdfs Written file_paths output_filename w).1 = Ok tt
  /\ stdout w' = stdout w ++ map (append_report (files w)) file_paths
                   ++ [Created output_filename; Stats (total - failed) failed]
  /\ files w' !! output_filename
     = Some (PdfDoc (flat_map (pages_at (files w)) file_paths))
  /\ (total - failed)%Z
     = Z.of_nat (length (List.filter (appendable (files w)) file_paths)).
Proof.
  cbv zeta. rewrite merge_pdfs_run.
  cbn [fst snd stdout files final_report after_write].
  repeat split.
  - apply lookup_insert_eq.
  - rewrite (failures_successes (files w) file_paths). lia.
Qed.

(** The example of the specification: of [a.pdf] and [b.pdf], the second
    corrupt, the output holds the pages of the first and the report reads
    1 succeeded, 1 failed. *)
Example merge_one_good_one_corrupt :
  merge_pdfs Written ["a.pdf"; "b.pdf"] "merged.pdf" (start [] shelf)
  = (Ok tt,
     World []
       [Added "a.pdf"; Failed "b.pdf" PdfReadError;
        Created "merged.pdf"; Stats 1 1]
       (<["merged.pdf" := PdfDoc ["a1"; "a2"]]> shelf) ∅).
Proof. vm_compute. reflexivity. Qed.

(** C2 fails on [merge_pdfs].  When the file is created and the write
    then breaks off, [merge_pdfs] prints the critical error and returns
    with the partial file still under the output name: unlike
    [convert_blog] and [convert_images_to_pdf], its handler removes
    nothing. *)
Theorem merge_pdfs_keeps_partial_output (file_paths : list string)
    (output_filename : string) (w : world) :
  let r := merge_pdfs Interrupted file_paths output_filename w in
  r.1 = Ok tt
  /\ files r.2 !! output_filename = Some Bytes
  /\ path_exists r.2 output_filename = true
  /\ last (stdout r.2) = Some (Critical OSError).
Proof.
  cbv zeta. rewrite merge_pdfs_run.
  cbn [fst snd stdout files final_report after_write path_exists].
  rewrite lookup_insert_eq. repeat split.
  - unfold path_exists. cbn [files]. by rewrite lookup_insert_eq.
  - by rewrite app_assoc, last_snoc.
Qed.

Example merge_pdfs_leaves_partial_file :
  merge_pdfs Interrupted ["a.pdf"] "merged.pdf" (start [] shelf)
  = (Ok tt,
     World [] [Added "a.pdf"; Critical OSError]
       (<["merged.pdf" := Bytes]> shelf) ∅).
Proof. vm_compute. reflexivity. Qed.

(** ** Removing the output of a failed conversion *)

(** The handler shared, word for word, by [convert_blog] and
    [convert_images_to_pdf]: report, then remove the output if there is
    one.  Afterwards no file has the output name. *)
Lemma failed_conversion_handler (e : exn) (output_filename : string) (w : world) :
  let r := (print (ConversionFailed e);;
            w' ← get;
            if path_exists w' output_filename then os_remove output_filename
            else mret tt) w in
  files r.2 !! output_filename = None
  /\ last (stdout r.2) = Some (ConversionFailed e)
  /\ dirs r.2 = dirs w
  /\ (output_filename ∉ dirs w ->
      r.1 = Ok tt /\ path_exists r.2 output_filename = false).
Proof.
  cbv zeta. unfold os_remove, path_exists. unfold_M.
  cbn [set_stdout files dirs stdout].
  destruct (files w !! output_filename) as [c|] eqn:F.
  - rewrite bool_decide_eq_true_2 by eauto. cbn [orb]. cbv beta.
    cbn [set_stdout files]. rewrite F.
    cbn [fst snd set_files set_stdout files stdout dirs].
    rewrite lookup_delete_eq, last_snoc.
    repeat split; auto.
    rewrite bool_decide_eq_false_2 by (intros []; discriminate).
    by rewrite bool_decide_eq_false_2.
  - rewrite (bool_decide_eq_false_2 (is_Some None)) by (intros []; discriminate).
    cbn [orb]. case_bool_decide as Hd; cbv beta; cbn [set_stdout files].
    + rewrite F. cbn [fst snd set_stdout files stdout dirs]. rewrite F, last_snoc.
      repeat split; auto; contradiction.
    + cbn [fst snd set_stdout files stdout dirs]. rewrite F, last_snoc.
      repeat split; auto.
      rewrite bool_decide_eq_false_2 by (intros []; discriminate).
      by rewrite bool_decide_eq_false_2.
Qed.

(** ** Blog to PDF driver *)

Lemma convert_blog_try_outcome net url output_filename w :
  let r := convert_blog_try net url output_filename w in
  dirs r.2 = dirs w /\ (blog_fails net url -> exists e, r.1 = Raise e).
Proof.
  cbv zeta. unfold blog_fails, convert_blog_try, requests_get, raise_for_status,
    write_file.
  destruct (http_get net url) as [[status text]|]; unfold_M;
    cbn [fst snd set_stdout dirs]; [|eauto].
  destruct (Z.leb_spec 400 status), (Z.ltb_spec status 600);
    cbn [andb fst snd set_stdout dirs]; eauto;
    (destruct (doc_summary net text) as [summary|];
     cbn [fst snd set_stdout dirs]; [|eauto];
     destruct (wkhtmltopdf net); unfold_M;
     cbn [fst snd set_stdout set_files dirs]; [|split; eauto..];
     destruct (doc_title net text) as [title|];
     cbn [fst snd set_stdout set_files dirs]; [|eauto];
     split; [reflexivity|]; intros [?|[?|[?|?]]]; (lia || done)).
Qed.

(** C8. When a stage of the blog conversion fails, [convert_blog] reports
    the failure as the last thing it prints and no file is left under the
    output name when it returns, whether the renderer had begun to write
    one or a file of that name was there before the run. *)
Theorem convert_blog_failure_leaves_no_output (net : web)
    (url output_filename : string) (w : world) :
  blog_fails net url ->
  let r := convert_blog net url output_filename w in
  files r.2 !! output_filename = None
  /\ (exists e, last (stdout r.2) = Some (ConversionFailed e))
  /\ (output_filename ∉ dirs w ->
      r.1 = Ok tt /\ path_exists r.2 output_filename = false).
Proof.
  intros Hfail. cbv zeta. unfold convert_blog, try_except.
  destruct (convert_blog_try_outcome net url output_filename w) as [Hd He].
  destruct (He Hfail) as [e E]. clear He.
  destruct (convert_blog_try net url output_filename w) as [r w1].
  cbn [fst snd] in *. subst r.
  destruct (failed_conversion_handler e output_filename w1)
    as (H1 & H2 & H3 & H4).
  split; [exact H1|]. split; [exists e; exact H2|].
  intros Hn. apply H4. by rewrite Hd.
Qed.

Lemma convert_blog_failure_leaves_no_output_witness :
  let r := convert_blog not_found_site "https://example.com/blog/gone"
             "blog_post.pdf" (start [] {[ "blog_post.pdf" := PdfDoc ["old"] ]}) in
  files r.2 !! "blog_post.pdf" = None
  /\ (exists e, last (stdout r.2) = Some (ConversionFailed e))
  /\ ("blog_post.pdf" ∉ dirs (start [] {[ "blog_post.pdf" := PdfDoc ["old"] ]}) ->
      r.1 = Ok tt /\ path_exists r.2 "blog_post.pdf" = false).
Proof.
  apply (convert_blog_failure_leaves_no_output not_found_site).
  simpl. left. lia.
Defined.

(** ** Image to PDF driver *)

Lemma open_images_run image_paths : forall images w,
  open_images image_paths images w
  = (Ok (images ++ omap (opened (files w)) image_paths),
     set_stdout (stdout w ++ map (open_report (files w)) image_paths) w).
Proof.
  induction image_paths as [|p paths IH]; intros images w.
  - cbn [open_images omap list_omap map]. unfold_M.
    rewrite !app_nil_r. by destruct w.
  - cbn [open_images]. unfold Image_open. unfold_M.
    cbn [omap list_omap map]. unfold opened at 1, open_report at 1.
    destruct (files w !! p) as [[pages|mode|]|]; cbn [img_mode img_path];
      rewrite IH; cbn [files stdout set_stdout];
      rewrite <- ?app_assoc; try reflexivity.
    unfold convert. by destruct (String.eqb mode "RGBA").
Qed.

Lemma opened_mode fs path img :
  opened fs path = Some img -> img_mode img <> "RGBA".
Proof.
  unfold opened. destruct (fs !! path) as [[pages|mode|]|]; try discriminate.
  intros [= <-]. cbn [img_mode].
  destruct (String.eqb mode "RGBA") eqn:E; [discriminate|].
  by apply String.eqb_neq.
Qed.

(** C9, as amended.  The loop always ends with a list of images; none of
    them is in mode [RGBA]; every path of the input that PIL opens is on
    the list, converted to [RGB] when it was opened in mode [RGBA] and
    untouched in every other mode, the other alpha modes included; and
    nothing else is on the list. *)
Theorem open_images_converts_rgba (image_paths : list string) (w : world) :
  exists images,
    (open_images image_paths [] w).1 = Ok images
    /\ Forall (fun img => img_mode img <> "RGBA") images
    /\ (forall path mode,
          path ∈ image_paths -> files w !! path = Some (Picture mode) ->
          Image path (if String.eqb mode "RGBA" then "RGB" else mode) ∈ images)
    /\ (forall img,
          img ∈ images ->
          img_path img ∈ image_paths
          /\ exists mode,
               files w !! img_path img = Some (Picture mode)
               /\ img_mode img = if String.eqb mode "RGBA" then "RGB" else mode).
Proof.
  exists (omap (opened (files w)) image_paths).
  rewrite open_images_run. cbn [fst app]. split; [reflexivity|].
  split; [|split].
  - apply Forall_forall. intros img Hin.
    apply list_elem_of_omap in Hin as (path & _ & Ho).
    by apply opened_mode in Ho.
  - intros path mode Hin Hf. apply list_elem_of_omap. exists path.
    split; [exact Hin|]. unfold opened. by rewrite Hf.
  - intros img Hin. apply list_elem_of_omap in Hin as (path & Hin & Ho).
    unfold opened in Ho.
    destruct (files w !! path) as [[pages|mode|]|] eqn:F; try discriminate.
    injection Ho as <-. cbn [img_path img_mode]. eauto.
Qed.

Lemma open_images_converts_rgba_witness :
  exists images,
    (open_images ["photo.png"; "notes.txt"; "scan.png"] [] (start [] album)).1
    = Ok images
    /\ Image "photo.png" "RGB" ∈ images
    /\ Image "scan.png" "LA" ∈ images.
Proof.
  destruct (open_images_converts_rgba ["photo.png"; "notes.txt"; "scan.png"]
              (start [] album)) as (images & Hrun & _ & Hin & _).
  exists images. split; [exact Hrun|]. split.
  - apply (Hin "photo.png" "RGBA"); [set_solver|reflexivity].
  - apply (Hin "scan.png" "LA"); [set_solver|reflexivity].
Defined.

(** C9, as the specification words it: no image in a mode with an alpha
    band would reach the save step.  A picture in mode [LA] does. *)
Lemma alpha_image_reaches_save :
  ~ (forall w image_paths images w',
       open_images image_paths [] w = (Ok images, w') ->
       Forall (fun img => has_alpha (img_mode img) = false) images).
Proof.
  intros H.
  specialize (H (start [] album) ["scan.png"] [Image "scan.png" "LA"]
                (World [] [Processed "scan.png"] album ∅)).
  assert (Forall (fun img => has_alpha (img_mode img) = false)
            [Image "scan.png" "LA"]) as HF
    by (apply H; vm_compute; reflexivity).
  apply Forall_cons in HF as [Ha _]. vm_compute in Ha. discriminate Ha.
Qed.

Example grey_alpha_image_is_saved_as_is :
  convert_images_to_pdf Written ["scan.png"] "images.pdf" (start [] album)
  = (Ok tt,
     World [] [Processed "scan.png"; Created "images.pdf"; Count 1]
       (<["images.pdf" := PdfDoc ["scan.png"]]> album) ∅).
Proof. vm_compute. reflexivity. Qed.

(** ** Office to PDF driver *)

(** [cleanup] does remove the directory and every file below it. *)
Lemma cleanup_removes (temp_dir : string) (w : world) :
  let r := cleanup temp_dir w in
  r.1 = Ok tt
  /\ (temp_dir ∉ dirs r.2)
  /\ (forall p, under temp_dir p = true -> files r.2 !! p = None)
  /\ (forall p, under temp_dir p = false -> files r.2 !! p = files w !! p).
Proof.
  cbv zeta. unfold cleanup. unfold_M. cbn [fst snd dirs files].
  split; [reflexivity|]. split.
  { intros [_ H]%elem_of_difference. apply H. by apply elem_of_singleton. }
  split.
  - intros p Hp. apply map_lookup_filter_None. right.
    intros c _. cbn [fst]. by rewrite Hp.
  - intros p Hp. destruct (files w !! p) as [c|] eqn:F.
    + apply map_lookup_filter_Some. split; [exact F|exact Hp].
    + apply map_lookup_filter_None. left. exact F.
Qed.

(** On the paths that reach the final write the temporary directory is
    gone when the driver returns, whether the write succeeds or fails. *)
Example office_run_cleans_up_after_write :
  word_to_pdf working_soffice Written "/tmp/tmpw0rd"
    (start ["a.docx"; "b.doc"; "q"; ""] desk)
  = (Ok tt,
     World []
       [Say "=== Word to PDF Converter ===";
        Say "Enter Word filenames (type 'q' to finish):";
        Validated "a.docx"; Validated "b.doc";
        Added "a.docx"; Added "b.doc";
        Created "word_merged.pdf"; Stats 2 0]
       (<["word_merged.pdf" := PdfDoc ["a.docx"; "b.doc"]]> desk) ∅).
Proof. vm_compute. reflexivity. Qed.

Example office_run_cleans_up_after_failed_write :
  word_to_pdf working_soffice CannotOpen "/tmp/tmpw0rd"
    (start ["a.docx"; "q"; ""] desk)
  = (Ok tt,
     World []
       [Say "=== Word to PDF Converter ===";
        Say "Enter Word filenames (type 'q' to finish):";
        Validated "a.docx"; Added "a.docx"; Critical OSError]
       desk ∅).
Proof. vm_compute. reflexivity. Qed.

Lemma convert_office_to_pdf_run soffice input_path temp_dir file_type w :
  exists res w',
    convert_office_to_pdf soffice input_path temp_dir file_type w = (Ok res, w')
    /\ stdin w' = stdin w /\ dirs w' = dirs w
    /\ (forall p, res = Some p ->
          path_exists w' p = true
          /\ p = Path.join temp_dir
                   ((Path.splitext (Path.basename input_path)).1 +:+ ".pdf")
          /\ stdout w' = stdout w)
    /\ (res = None -> exists e, stdout w' = stdout w ++ [Failed input_path e])
    /\ (soffice input_path = None -> res = None /\ files w' = files w).
Proof.
  unfold convert_office_to_pdf, run_libreoffice. unfold_M.
  destruct (soffice input_path) as [written|]; unfold_M;
    cbn [fst snd set_files set_stdout stdin stdout files dirs].
  - match goal with
    | |- context [if path_exists ?w1 ?p then _ else _] =>
        destruct (path_exists w1 p) eqn:E
    end; cbv beta; cbn [fst snd set_files set_stdout stdin stdout files dirs];
      do 2 eexists; (split; [reflexivity|]); cbn [stdin dirs stdout];
      (split; [reflexivity|]); (split; [reflexivity|]); (split; [|split]).
    + intros p [= <-]. by repeat split.
    + discriminate.
    + discriminate.
    + discriminate.
    + intros _. eauto.
    + discriminate.
  - do 2 eexists. split; [reflexivity|]. cbn [stdin dirs stdout files].
    split; [reflexivity|]. split; [reflexivity|]. split; [|split].
    + discriminate.
    + intros _. eauto.
    + by intros _.
Qed.

Lemma office_loop_inv soffice temp_dir file_type names :
  forall merger error_count w,
  exists merger' error_count' w',
    office_loop soffice temp_dir file_type names merger error_count w
    = (Ok (merger', error_count'), w')
    /\ stdin w' = stdin w /\ dirs w' = dirs w
    /\ (error_count <= error_count'
        <= error_count + Z.of_nat (length names))%Z
    /\ (length merger <= length merger')%nat
    /\ ((length merger < length merger')%nat ->
        (error_count' < error_count + Z.of_nat (length names))%Z).
Proof.
  induction names as [|f names IH]; intros merger ec w.
  - exists merger, ec, w. cbn [office_loop length]. unfold_M.
    repeat split; lia.
  - cbn [office_loop]. unfold mbind at 1. unfold M_bind at 1.
    destruct (convert_office_to_pdf_run soffice f temp_dir file_type w)
      as (res & w1 & -> & Hi & Hd & _).
    assert (exists m1 e1 w2,
      (match res with
       | Some p =>
           if Str.truthy p then
             try_except
               (pages ← read_pdf p;
                print (Added f);;
                mret (merger ++ pages, ec))
               (fun e => print (Failed f e);; mret (merger, (ec + 1)%Z))
           else mret (merger, (ec + 1)%Z)
       | None => mret (merger, (ec + 1)%Z)
       end) w1 = (Ok (m1, e1), w2)
      /\ stdin w2 = stdin w1 /\ dirs w2 = dirs w1
      /\ ((e1 = ec /\ (length merger <= length m1)%nat)
          \/ (e1 = (ec + 1)%Z /\ m1 = merger))) as (m1 & e1 & w2 & E & Hi2 & Hd2 & Hc).
    { destruct res as [p|]; [destruct (Str.truthy p)|]; unfold read_pdf;
        unfold_M; try (do 3 eexists; split; [reflexivity|]; by eauto).
      destruct (files w1 !! p) as [[pages|mode|]|];
        do 3 eexists; (split; [reflexivity|]);
        cbn [stdin dirs set_stdout]; repeat split; eauto.
      left. split; [done|]. rewrite length_app. lia. }
    unfold mbind at 1. unfold M_bind at 1. rewrite E. cbn [fst snd].
    destruct (IH m1 e1 w2) as (m' & e' & w' & -> & Hi3 & Hd3 & He & Hm & Hlt).
    exists m', e', w'. split; [reflexivity|].
    cbn [length]. rewrite Nat2Z.inj_succ.
    split; [congruence|]. split; [congruence|].
    destruct Hc as [[-> Hm1]|[-> ->]]; repeat split; try lia.
Qed.

(** Collecting names and asking for the output name leave the disk as it
    is, and end either with their result or at the end of the input. *)
Lemma collect_loop_disk validate :
  (forall n w, (validate n w).2 = w) ->
  forall lines acc w,
    let r := collect_loop validate lines acc w in
    files r.2 = files w /\ dirs r.2 = dirs w
    /\ (forall e, r.1 = Raise e -> e = EOFError).
Proof.
  intros Hv. induction lines as [|line rest IH]; intros acc w; cbv zeta.
  - cbn [collect_loop]. unfold_M. cbn [fst snd].
    split; [reflexivity|]. split; [reflexivity|]. by intros e [= <-].
  - cbn [collect_loop]. unfold_M.
    destruct (String.eqb (Str.lower (Str.strip line)) "q").
    { cbn [fst snd files dirs set_stdin]. by repeat split. }
    pose proof (Hv (Str.strip line) (set_stdin rest w)) as Hp.
    destruct (validate (Str.strip line) (set_stdin rest w)) as [[[]|e] w1];
      cbn [snd] in Hp; subst w1;
      match goal with
      | |- context [collect_loop validate rest ?a ?w1] =>
          destruct (IH a w1) as (Hf & Hd & He)
      end;
      cbn [files dirs set_stdin set_stdout] in Hf, Hd; by repeat split.
Qed.

Lemma get_office_files_disk extensions file_type w :
  let r := get_office_files extensions file_type w in
  files r.2 = files w /\ dirs r.2 = dirs w
  /\ (forall e, r.1 = Raise e -> e = EOFError).
Proof.
  cbv zeta. unfold get_office_files, collect. rewrite bind_run.
  change (print ?e w) with (Ok tt, set_stdout (stdout w ++ [e]) w).
  cbv beta iota. rewrite bind_run. unfold get at 1. cbv beta iota.
  match goal with
  | |- context [collect_loop ?v ?l ?a ?w1] =>
      destruct (collect_loop_disk v
                  (validate_office_file_pure extensions file_type) l a w1)
        as (Hf & Hd & He)
  end.
  cbn [files dirs set_stdout] in Hf, Hd.
  split; [exact Hf|]. split; [exact Hd|exact He].
Qed.

Lemma get_output_filename_loop_disk default_name lines : forall w,
  let r := get_output_filename_loop default_name lines w in
  files r.2 = files w /\ dirs r.2 = dirs w
  /\ (forall e, r.1 = Raise e -> e = EOFError).
Proof.
  induction lines as [|line rest IH]; intros w; cbv zeta.
  - cbn [get_output_filename_loop]. unfold_M. cbn [fst snd].
    split; [reflexivity|]. split; [reflexivity|]. by intros e [= <-].
  - cbn [get_output_filename_loop]. unfold_M. cbn zeta.
    match goal with
    | |- context [if Str.truthy ?d then _ else _] => destruct (Str.truthy d)
    end.
    + match goal with
      | |- context [get_output_filename_loop default_name rest ?w1] =>
          destruct (IH w1) as (Hf & Hd & He)
      end.
      cbn [files dirs set_stdin set_stdout] in Hf, Hd. by repeat split.
    + cbn [fst snd files dirs set_stdin]. by repeat split.
Qed.

Lemma get_output_filename_disk default_name w :
  let r := get_output_filename default_name w in
  files r.2 = files w /\ dirs r.2 = dirs w
  /\ (forall e, r.1 = Raise e -> e = EOFError).
Proof.
  cbv zeta. unfold get_output_filename. rewrite bind_run.
  unfold get at 1. cbv beta iota. apply get_output_filename_loop_disk.
Qed.

(** Releasing the directory object removes the directory when it is
    still there, and does nothing after a [cleanup]. *)
Lemma release_present temp_dir w :
  temp_dir ∈ dirs w -> release temp_dir w = cleanup temp_dir w.
Proof.
  intros H. unfold release. rewrite bind_run. unfold get. cbv beta iota.
  by rewrite bool_decide_true.
Qed.

Lemma release_absent temp_dir w :
  temp_dir ∉ dirs w -> release temp_dir w = (Ok tt, w).
Proof.
  intros H. unfold release. rewrite bind_run. unfold get. cbv beta iota.
  by rewrite bool_decide_false.
Qed.

(** The part of the driver that runs while the temporary directory
    exists, from the loop to the release of the directory object: it
    returns normally, reads no input, and leaves neither the directory nor
    a file below it, whichever of its three ways out it takes. *)
Lemma office_tail_run soffice disk temp_dir file_type names output_name w :
  temp_dir ∈ dirs w ->
  let r := ((s ← office_loop soffice temp_dir file_type names [] 0%Z;
             let merger := s.1 in
             let error_count := s.2 in
             if (length merger =? 0)%nat then
               print (Say "No valid PDFs generated. Exiting.")
             else
               try_finally
                 (try_except
                    (write_file OSError disk output_name (PdfDoc merger);;
                     print (Created output_name);;
                     print (Stats (Z.of_nat (length names) - error_count)
                                  error_count))
                    (fun e => print (Critical e)))
                 (merger_close;; cleanup temp_dir));;
            release temp_dir) w in
  r.1 = Ok tt
  /\ stdin r.2 = stdin w
  /\ dirs r.2 = dirs w ∖ {[temp_dir]}
  /\ (forall p, under temp_dir p = true -> files r.2 !! p = None).
Proof.
  intros Hin. cbv zeta. rewrite !bind_run.
  destruct (office_loop_inv soffice temp_dir file_type names [] 0%Z w)
    as (m & ec & w1 & -> & Hi & Hd & _).
  cbn [fst snd].
  destruct m as [|pg m]; cbn [length Nat.eqb].
  - change (print ?e w1) with (Ok tt, set_stdout (stdout w1 ++ [e]) w1).
    cbv beta iota. rewrite release_present by (cbn [dirs set_stdout]; by rewrite Hd).
    destruct (cleanup_removes temp_dir (set_stdout (stdout w1 ++ [Say "No valid PDFs generated. Exiting."]) w1))
      as (H1 & _ & H3 & _).
    cbv zeta in H1, H3. split; [exact H1|]. split; [exact Hi|].
    split; [|exact H3]. cbn [cleanup modify snd dirs set_stdout]. by rewrite Hd.
  - assert (forall w2 : world, stdin w2 = stdin w -> dirs w2 = dirs w ->
              let r := release temp_dir (cleanup temp_dir w2).2 in
              r.1 = Ok tt /\ stdin r.2 = stdin w
              /\ dirs r.2 = dirs w ∖ {[temp_dir]}
              /\ (forall p, under temp_dir p = true -> files r.2 !! p = None))
      as Hdone.
    { intros w2 Hi2 Hd2. cbv zeta.
      destruct (cleanup_removes temp_dir w2) as (_ & H2 & H3 & _).
      cbv zeta in H2, H3. rewrite release_absent by exact H2.
      cbn [fst snd]. split; [reflexivity|]. split; [exact Hi2|].
      split; [|exact H3]. cbn [cleanup modify snd dirs]. by rewrite Hd2. }
    unfold merger_close, write_file.
    destruct disk; unfold_M; cbv beta iota;
      match goal with
      | |- context [cleanup temp_dir ?w2] =>
          change (cleanup temp_dir w2) with (Ok tt, (cleanup temp_dir w2).2);
          cbv beta iota;
          apply (Hdone w2); cbn [stdin dirs set_stdout set_files]; done
      end.
Qed.

(** C1. Take any run of [handle_office_conversion], with [tmpname] the
    fresh path the temporary directory gets (no directory and no file of
    the disk is at or below it before the run).  Whichever way the run
    ends, by a normal return after a successful write, after a failed
    write, from the zero-pages check or for want of files, or by the
    [EOFError] of [input()], afterwards there is no directory [tmpname],
    the directories are those there were before, and no file is below
    [tmpname]. *)
Theorem handle_office_conversion_removes_temp_dir (soffice : converter)
    (disk : write_outcome) (tmpname file_type : string)
    (extensions : list string) (default_output : string) (w : world) :
  tmpname ∉ dirs w ->
  (forall p, under tmpname p = true -> files w !! p = None) ->
  let r := handle_office_conversion soffice disk tmpname file_type
             extensions default_output w in
  (r.1 = Ok tt \/ r.1 = Raise EOFError)
  /\ (tmpname ∉ dirs r.2)
  /\ dirs r.2 = dirs w
  /\ (forall p, under tmpname p = true -> files r.2 !! p = None).
Proof.
  intros Hfresh Hnone. cbv zeta. unfold handle_office_conversion.
  rewrite bind_run.
  change (print ?e w) with (Ok tt, set_stdout (stdout w ++ [e]) w).
  cbv beta iota. rewrite bind_run.
  match goal with
  | |- context [get_office_files extensions file_type ?w1] =>
      destruct (get_office_files_disk extensions file_type w1) as (Hf & Hd & He);
      destruct (get_office_files extensions file_type w1) as [[names|e] w2]
  end; cbn [fst snd files dirs set_stdout] in Hf, Hd, He.
  2:{ cbn [fst snd]. rewrite Hd, Hf. rewrite (He e eq_refl). by repeat split; auto. }
  destruct names as [|n names].
  { change (print ?e w2) with (Ok tt, set_stdout (stdout w2 ++ [e]) w2).
    cbn [fst snd files dirs set_stdout]. rewrite Hd, Hf. by repeat split; auto. }
  rewrite bind_run.
  destruct (get_output_filename_disk default_output w2) as (Hf3 & Hd3 & He3).
  destruct (get_output_filename default_output w2) as [[out|e] w3];
    cbn [fst snd] in Hf3, Hd3, He3.
  2:{ cbn [fst snd]. rewrite Hd3, Hd, Hf3, Hf. rewrite (He3 e eq_refl).
      by repeat split; auto. }
  rewrite bind_run.
  change (TemporaryDirectory tmpname w3)
    with (Ok tmpname, set_dirs ({[tmpname]} ∪ dirs w3) w3).
  cbv beta iota.
  match goal with
  | |- context [(?body ≫= ?rel) ?w4] =>
      destruct (office_tail_run soffice disk tmpname file_type (n :: names)
                  out w4) as (H1 & _ & H3 & H4)
  end.
  { cbn [dirs set_dirs]. apply elem_of_union_l. by apply elem_of_singleton. }
  cbv zeta in H1, H3, H4. cbn [dirs set_dirs] in H3.
  assert (({[tmpname]} ∪ dirs w3) ∖ {[tmpname]} = dirs w) as Hsame.
  { rewrite Hd3, Hd. apply set_eq. intros x.
    rewrite elem_of_difference, elem_of_union, elem_of_singleton.
    split; [intros [[->|Hx] Hn]; done|].
    intros Hx. split; [by right|]. by intros ->. }
  split; [by left|]. rewrite H3, Hsame. by repeat split.
Qed.

(** An abort from the zero-pages check: the converter fails on the one
    file collected. *)
Lemma handle_office_conversion_removes_temp_dir_witness :
  let r := handle_office_conversion broken_soffice Written "/tmp/tmpw0rd"
             "Word" [".docx"; ".doc"] "word_merged.pdf"
             (start ["a.docx"; "q"; ""] desk) in
  last (stdout r.2) = Some (Say "No valid PDFs generated. Exiting.")
  /\ r.1 = Ok tt
  /\ ("/tmp/tmpw0rd" ∉ dirs r.2)
  /\ (forall p, under "/tmp/tmpw0rd" p = true -> files r.2 !! p = None).
Proof.
  cbv zeta. split; [vm_compute; reflexivity|].
  destruct (handle_office_conversion_removes_temp_dir broken_soffice Written
              "/tmp/tmpw0rd" "Word" [".docx"; ".doc"] "word_merged.pdf"
              (start ["a.docx"; "q"; ""] desk)) as ([H1|H1] & H2 & _ & H4).
  - cbn [start dirs]. apply not_elem_of_empty.
  - intros p Hp. cbn [start files].
    destruct (decide (p = "a.docx")) as [->|]; [discriminate Hp|].
    destruct (decide (p = "b.doc")) as [->|]; [discriminate Hp|].
    unfold desk. rewrite lookup_insert_ne by done.
    by apply lookup_singleton_ne.
  - by repeat split.
  - vm_compute in H1. discriminate H1.
Defined.

(** The run of the abort, line by line. *)
Example office_abort_releases_temp_dir :
  word_to_pdf broken_soffice Written "/tmp/tmpw0rd"
    (start ["a.docx"; "q"; ""] desk)
  = (Ok tt,
     World []
       [Say "=== Word to PDF Converter ===";
        Say "Enter Word filenames (type 'q' to finish):";
        Validated "a.docx"; Failed "a.docx" CalledProcessError;
        Say "No valid PDFs generated. Exiting."]
       desk ∅).
Proof. vm_compute. reflexivity. Qed.

(** * Further properties of the program *)

(** ** What the validators accept *)

(** Closes an equivalence between a computed verdict and its conditions. *)
Ltac verdict :=
  split;
  [ first [ discriminate
          | intros _; repeat split; eauto ]
  | first [ reflexivity
          | intros (? & ? & [? ?]); congruence
          | intros (? & ? & ?); congruence ] ].

Lemma bool_decide_is_Some_Some {A} (x : A) :
  bool_decide (is_Some (Some x)) = true.
Proof. apply bool_decide_eq_true_2. eauto. Qed.

Lemma bool_decide_is_Some_None {A} :
  bool_decide (is_Some (@None A)) = false.
Proof. apply bool_decide_eq_false_2. intros []. discriminate. Qed.

Lemma validate_pdf_file_ok (w : world) (filename : string) :
  (validate_pdf_file filename w).1 = Ok tt
  <-> Str.contains "/" filename = false
      /\ Str.endswith (Str.lower filename) ".pdf" = true
      /\ exists pages, files w !! filename = Some (PdfDoc pages).
Proof.
  unfold validate_pdf_file, read_pdf, path_exists. unfold_M.
  rewrite dirname_truthy. change Path.sep with "/"%char.
  destruct (Str.contains "/" filename); [verdict|].
  destruct (files w !! filename) as [c|] eqn:F.
  - rewrite bool_decide_is_Some_Some. cbn [orb negb].
    destruct (Str.endswith (Str.lower filename) ".pdf");
      cbn [negb]; [|verdict].
    rewrite F. destruct c; verdict.
  - rewrite bool_decide_is_Some_None. cbn [orb].
    case_bool_decide; cbn [negb]; [|verdict].
    destruct (Str.endswith (Str.lower filename) ".pdf");
      cbn [negb]; [|verdict].
    rewrite F. verdict.
Qed.

(** [validate_pdf_file] lets a name through exactly when it has no
    directory separator, ends in [.pdf] in some letter case, and is a file
    that PyPDF2 parses; and it leaves the world as it found it. *)
Theorem validate_pdf_file_accepts (w : world) (filename : string) :
  (validate_pdf_file filename w).2 = w
  /\ ((validate_pdf_file filename w).1 = Ok tt
      <-> Str.contains "/" filename = false
          /\ Str.endswith (Str.lower filename) ".pdf" = true
          /\ exists pages, files w !! filename = Some (PdfDoc pages)).
Proof.
  split; [apply validate_pdf_file_pure|apply validate_pdf_file_ok].
Qed.

(** What [validate_image_file] does, case by case, in the order of its
    tests. *)
Lemma validate_image_file_cases (w : world) (filename : string) :
  validate_image_file filename w
  = (if Str.contains "/" filename then Raise PathNotAllowed
     else if negb (path_exists w filename) then Raise (NotFound filename)
     else if negb (Str.endswith_any (Str.lower filename) image_extensions)
          then Raise (ValueError "Not a supported image file")
     else match files w !! filename with
          | Some (Picture _) => Ok tt
          | Some _ =>
              Raise (ValueError ("Invalid image file: "
                                 +:+ str_exn UnidentifiedImageError))
          | None => Raise (ValueError ("Invalid image file: " +:+ str_exn OSError))
          end,
     w).
Proof.
  unfold validate_image_file, Image_open. unfold_M.
  rewrite dirname_truthy. change Path.sep with "/"%char.
  destruct (Str.contains "/" filename); [reflexivity|].
  destruct (negb (path_exists w filename)); [reflexivity|].
  destruct (negb (Str.endswith_any (Str.lower filename) image_extensions));
    [reflexivity|].
  by destruct (files w !! filename) as [[pages|mode|]|].
Qed.

Lemma validate_image_file_ok (w : world) (filename : string) :
  (validate_image_file filename w).1 = Ok tt ->
  Str.contains "/" filename = false
  /\ Str.endswith_any (Str.lower filename)
       [".jpg"; ".jpeg"; ".png"; ".webp"; ".bmp"] = true
  /\ exists mode, files w !! filename = Some (Picture mode).
Proof.
  rewrite validate_image_file_cases. cbn [fst]. unfold image_extensions.
  destruct (Str.contains "/" filename); [discriminate|].
  destruct (negb (path_exists w filename)); [discriminate|].
  destruct (Str.endswith_any (Str.lower filename) _);
    cbn [negb]; [|discriminate].
  destruct (files w !! filename) as [[pages|mode|]|]; try discriminate.
  intros _. eauto.
Qed.

(** The verdicts of [validate_image_file].  It leaves the world as it
    found it.  A name it lets through has no directory separator, exists,
    ends in one of the five image extensions in some letter case, and is a
    file that PIL opens.  When it turns a name down, the reason follows
    the order of its tests: the separator first, then the missing file,
    then the extension, and only for a name that passed these three the
    content, as an [Invalid image file] that wraps what the library said;
    so every failure is a [ValueError] or a [FileNotFoundError], and no
    exception of the library gets out as it is. *)
Theorem validate_image_file_verdicts (w : world) (filename : string) :
  let r := validate_image_file filename w in
  r.2 = w
  /\ (r.1 = Ok tt ->
      Str.contains "/" filename = false
      /\ path_exists w filename = true
      /\ Str.endswith_any (Str.lower filename)
           [".jpg"; ".jpeg"; ".png"; ".webp"; ".bmp"] = true
      /\ exists mode, files w !! filename = Some (Picture mode))
  /\ (forall e, r.1 = Raise e ->
      (e = PathNotAllowed /\ Str.contains "/" filename = true)
      \/ (Str.contains "/" filename = false
          /\ ((e = NotFound filename /\ path_exists w filename = false)
              \/ (path_exists w filename = true
                  /\ ((e = ValueError "Not a supported image file"
                       /\ Str.endswith_any (Str.lower filename)
                            [".jpg"; ".jpeg"; ".png"; ".webp"; ".bmp"] = false)
                      \/ (Str.endswith_any (Str.lower filename)
                            [".jpg"; ".jpeg"; ".png"; ".webp"; ".bmp"] = true
                          /\ exists msg,
                               e = ValueError ("Invalid image file: "
                                               +:+ msg))))))).
Proof.
  cbv zeta. rewrite validate_image_file_cases. cbn [fst snd].
  unfold image_extensions.
  split; [reflexivity|].
  destruct (Str.contains "/" filename).
  { split; [discriminate|]. intros e [= <-]. by left. }
  destruct (path_exists w filename); cbn [negb].
  2:{ split; [discriminate|]. intros e [= <-]. right. split; [done|]. by left. }
  destruct (Str.endswith_any (Str.lower filename) _); cbn [negb].
  2:{ split; [discriminate|]. intros e [= <-]. right. split; [done|].
      right. split; [done|]. by left. }
  destruct (files w !! filename) as [[pages|mode|]|].
  - split; [discriminate|]. intros e [= <-]. right. split; [done|].
    right. split; [done|]. right. split; [done|]. by eexists.
  - split; [|discriminate]. intros _.
    split; [done|]. split; [done|]. split; [done|]. by exists mode.
  - split; [discriminate|]. intros e [= <-]. right. split; [done|].
    right. split; [done|]. right. split; [done|]. by eexists.
  - split; [discriminate|]. intros e [= <-]. right. split; [done|].
    right. split; [done|]. right. split; [done|]. by eexists.
Qed.

(** A picture that is let through, and a text file under the name of a
    picture that is turned down for its content. *)
Lemma validate_image_file_verdicts_witness :
  (exists mode, album !! "photo.png" = Some (Picture mode))
  /\ exists msg,
       (validate_image_file "notes.png"
          (start [] (<["notes.png" := Bytes]> album))).1
       = Raise (ValueError ("Invalid image file: " +:+ msg)).
Proof.
  split.
  - destruct (validate_image_file_verdicts (start [] album) "photo.png")
      as (_ & Hok & _).
    destruct (Hok eq_refl) as (_ & _ & _ & Hmode). exact Hmode.
  - destruct (validate_image_file_verdicts
                (start [] (<["notes.png" := Bytes]> album)) "notes.png")
      as (_ & _ & Hno).
    destruct (Hno (ValueError "Invalid image file: cannot identify image file")
                eq_refl)
      as [[H _]|(_ & [[H _]|(_ & [[H _]|(_ & msg & H)])])];
      try discriminate H.
    exists msg. vm_compute. by rewrite H.
Defined.

Lemma validate_office_file_ok (w : world) (filename : string)
    (extensions : list string) (file_type : string) :
  (validate_office_file filename extensions file_type w).1 = Ok tt
  <-> Str.contains "/" filename = false
      /\ path_exists w filename = true
      /\ Str.endswith_any (Str.lower filename) extensions = true.
Proof.
  unfold validate_office_file. unfold_M.
  rewrite dirname_truthy. change Path.sep with "/"%char.
  destruct (Str.contains "/" filename); [verdict|].
  destruct (path_exists w filename); cbn [negb]; [|verdict].
  destruct (Str.endswith_any (Str.lower filename) extensions);
    cbn [negb]; verdict.
Qed.

(** [validate_office_file] lets a name through exactly when it has no
    directory separator, exists, and ends in one of the given extensions
    in some letter case.  What the file holds plays no part: a file of any
    content passes.  The world is left as it was. *)
Theorem validate_office_file_accepts (w : world) (filename : string)
    (extensions : list string) (file_type : string) :
  (validate_office_file filename extensions file_type w).2 = w
  /\ ((validate_office_file filename extensions file_type w).1 = Ok tt
      <-> Str.contains "/" filename = false
          /\ path_exists w filename = true
          /\ Str.endswith_any (Str.lower filename) extensions = true).
Proof.
  split; [apply validate_office_file_pure|apply validate_office_file_ok].
Qed.

(** The extension is judged before the content: an existing file whose
    name lacks the expected extension is turned down for its extension by
    all three validators, whatever it holds, and is never read. *)
Theorem wrong_extension_is_unsupported (w : world) (filename : string)
    (extensions : list string) (file_type : string) :
  Str.contains "/" filename = false ->
  path_exists w filename = true ->
  (Str.endswith (Str.lower filename) ".pdf" = false ->
   validate_pdf_file filename w = (Raise (ValueError "Not a PDF file"), w))
  /\ (Str.endswith_any (Str.lower filename) image_extensions = false ->
      validate_image_file filename w
      = (Raise (ValueError "Not a supported image file"), w))
  /\ (Str.endswith_any (Str.lower filename) extensions = false ->
      validate_office_file filename extensions file_type w
      = (Raise (ValueError ("Not a supported " +:+ file_type +:+ " file")), w)).
Proof.
  intros Hsep Hex.
  unfold validate_pdf_file, validate_image_file, validate_office_file.
  unfold_M. rewrite dirname_truthy. change Path.sep with "/"%char.
  rewrite Hsep, Hex. cbn [negb].
  repeat split; intros ->; reflexivity.
Qed.

Lemma wrong_extension_is_unsupported_witness :
  validate_pdf_file "b.pdf.bak" (start [] {[ "b.pdf.bak" := PdfDoc ["p"] ]})
  = (Raise (ValueError "Not a PDF file"),
     start [] {[ "b.pdf.bak" := PdfDoc ["p"] ]}).
Proof.
  apply (wrong_extension_is_unsupported _ "b.pdf.bak" [] "");
    vm_compute; reflexivity.
Defined.

(** ** What the collectors return *)

Section CollectorResults.

Variable validate : string -> M unit.
Hypothesis validate_pure : forall n w, (validate n w).2 = w.
Hypothesis validate_fs : forall n w1 w2,
  files w1 = files w2 -> dirs w1 = dirs w2 ->
  (validate n w1).1 = (validate n w2).1.

(** A collection that returns has met a quit line. *)
Lemma collect_loop_returned lines : forall acc w l w',
  collect_loop validate lines acc w = (Ok l, w') ->
  exists pre line rest,
    lines = pre ++ line :: rest
    /\ Forall (fun x => is_quit x = false) pre
    /\ is_quit line = true.
Proof.
  induction lines as [|x lines IH]; intros acc w l w' H.
  - discriminate H.
  - destruct (is_quit x) eqn:Q.
    + exists [], x, lines. by repeat split.
    + rewrite (collect_loop_step validate validate_pure validate_fs) in H
        by done.
      apply IH in H as (pre & line & rest & -> & Hpre & Hq).
      exists (x :: pre), line, rest. repeat split; [|done].
      by constructor.
Qed.

Lemma collect_returned w l w' :
  collect validate w = (Ok l, w') ->
  exists pre line,
    stdin w = pre ++ line :: stdin w'
    /\ Forall (fun x => is_quit x = false) pre
    /\ is_quit line = true
    /\ l = List.filter (accepts validate w) (map Str.strip pre)
    /\ stdout w' = stdout w ++ map (echo validate w) (map Str.strip pre)
    /\ files w' = files w /\ dirs w' = dirs w.
Proof.
  unfold collect. unfold_M. intros H.
  destruct (collect_loop_returned _ _ _ _ _ H)
    as (pre & line & rest & Hin & Hpre & Hq).
  rewrite Hin, (collect_loop_stops validate validate_pure validate_fs) in H
    by done.
  injection H as <- <-. cbn [stdin stdout files dirs app].
  exists pre, line. by repeat split.
Qed.

End CollectorResults.

(** [get_image_files] stops exactly at the first line that, stripped and
    lowered, is [q]; it returns, in order, the stripped earlier lines that
    [validate_image_file] accepts, prints one line for each earlier line,
    and leaves the later lines unread.  Without such a line it ends in the
    [EOFError] of [input()]. *)
Theorem get_image_files_stops_at_q (w : world) :
  (forall pre line rest,
     stdin w = pre ++ line :: rest ->
     Forall (fun l => is_quit l = false) pre ->
     is_quit line = true ->
     get_image_files w
     = (Ok (List.filter (accepts validate_image_file w) (map Str.strip pre)),
        World rest
              (stdout w ++ image_prompt
                 :: map (echo validate_image_file w) (map Str.strip pre))
              (files w) (dirs w)))
  /\ (Forall (fun l => is_quit l = false) (stdin w) ->
      (get_image_files w).1 = Raise EOFError).
Proof.
  split.
  - intros pre line rest Hin Hpre Hq.
    unfold get_image_files, collect. unfold_M. cbn [stdin set_stdout].
    rewrite Hin.
    rewrite (collect_loop_stops validate_image_file validate_image_file_pure
               validate_image_file_fs) by done.
    rewrite (accepts_fs validate_image_file validate_image_file_fs
               (set_stdout _ w) w),
            (echo_fs validate_image_file validate_image_file_fs
               (set_stdout _ w) w) by reflexivity.
    cbn [stdout files dirs set_stdout app].
    by rewrite <- app_assoc.
  - intros H. unfold get_image_files, collect. unfold_M.
    cbn [stdin set_stdout].
    by apply (collect_loop_eof validate_image_file validate_image_file_pure
                validate_image_file_fs).
Qed.

Lemma get_image_files_stops_at_q_witness :
  get_image_files (start [" photo.png "; "notes.txt"; "Q"; "scan.png"] album)
  = (Ok ["photo.png"],
     World ["scan.png"]
           [image_prompt; Validated "photo.png";
            Rejected (ValueError "Not a supported image file")]
           album ∅).
Proof.
  destruct (get_image_files_stops_at_q
              (start [" photo.png "; "notes.txt"; "Q"; "scan.png"] album))
    as [H _].
  rewrite (H [" photo.png "; "notes.txt"] "Q" ["scan.png"]).
  - vm_compute. reflexivity.
  - reflexivity.
  - repeat constructor.
  - reflexivity.
Defined.

(** [get_office_files] does the same around [validate_office_file], for
    every extension set and file type. *)
Theorem get_office_files_stops_at_q (extensions : list string)
    (file_type : string) (w : world) :
  let validate := fun n => validate_office_file n extensions file_type in
  (forall pre line rest,
     stdin w = pre ++ line :: rest ->
     Forall (fun l => is_quit l = false) pre ->
     is_quit line = true ->
     get_office_files extensions file_type w
     = (Ok (List.filter (accepts validate w) (map Str.strip pre)),
        World rest
              (stdout w ++ office_prompt file_type
                 :: map (echo validate w) (map Str.strip pre))
              (files w) (dirs w)))
  /\ (Forall (fun l => is_quit l = false) (stdin w) ->
      (get_office_files extensions file_type w).1 = Raise EOFError).
Proof.
  cbv zeta. split.
  - intros pre line rest Hin Hpre Hq.
    unfold get_office_files, collect. unfold_M. cbn [stdin set_stdout].
    rewrite Hin.
    rewrite (collect_loop_stops _
               (validate_office_file_pure extensions file_type)
               (validate_office_file_fs extensions file_type)) by done.
    rewrite (accepts_fs _ (validate_office_file_fs extensions file_type)
               (set_stdout _ w) w),
            (echo_fs _ (validate_office_file_fs extensions file_type)
               (set_stdout _ w) w) by reflexivity.
    cbn [stdout files dirs set_stdout app].
    by rewrite <- app_assoc.
  - intros H. unfold get_office_files, collect. unfold_M.
    cbn [stdin set_stdout].
    by apply (collect_loop_eof _
                (validate_office_file_pure extensions file_type)
                (validate_office_file_fs extensions file_type)).
Qed.

Lemma get_office_files_stops_at_q_witness :
  get_office_files [".docx"; ".doc"] "Word"
    (start ["a.docx"; "c.docx"; "B.DOC"; " q"; "a.docx"]
       {[ "a.docx" := Bytes; "B.DOC" := Bytes ]})
  = (Ok ["a.docx"; "B.DOC"],
     World ["a.docx"]
           [office_prompt "Word"; Validated "a.docx";
            Rejected (FileNotFoundError "File 'c.docx' not found");
            Validated "B.DOC"]
           {[ "a.docx" := Bytes; "B.DOC" := Bytes ]} ∅).
Proof.
  destruct (get_office_files_stops_at_q [".docx"; ".doc"] "Word"
              (start ["a.docx"; "c.docx"; "B.DOC"; " q"; "a.docx"]
                 {[ "a.docx" := Bytes; "B.DOC" := Bytes ]}))
    as [H _].
  rewrite (H ["a.docx"; "c.docx"; "B.DOC"] " q" ["a.docx"]).
  - vm_compute. reflexivity.
  - reflexivity.
  - repeat constructor.
  - reflexivity.
Defined.

Lemma accepts_ok validate w x :
  accepts validate w x = true <-> (validate x w).1 = Ok tt.
Proof.
  unfold accepts. destruct ((validate x w).1) as [[]|e]; split; done.
Qed.

Lemma Forall_filter_accepts validate w (names : list string) :
  Forall (fun x => (validate x w).1 = Ok tt)
         (List.filter (accepts validate w) names).
Proof.
  apply Forall_forall. intros x Hin. apply list_elem_of_In in Hin.
  apply List.filter_In in Hin as [_ Hin]. by apply accepts_ok.
Qed.

(** Whatever a collector returns has passed its validator on the disk as
    it is, and collecting changes neither files nor directories: every
    name on the list of [get_file_names] is a separator-free [.pdf] name
    of a parseable PDF, every name on the list of [get_image_files] is a
    separator-free name with an image extension of a picture that opens,
    and every name on the list of [get_office_files] is a separator-free
    existing name with one of the given extensions. *)
Theorem collected_names_are_valid (w w' : world) (l : list string)
    (extensions : list string) (file_type : string) :
  (get_file_names w = (Ok l, w') ->
     files w' = files w /\ dirs w' = dirs w
     /\ Forall (fun x => Str.contains "/" x = false
                         /\ Str.endswith (Str.lower x) ".pdf" = true
                         /\ exists pages, files w !! x = Some (PdfDoc pages)) l)
  /\ (get_image_files w = (Ok l, w') ->
     files w' = files w /\ dirs w' = dirs w
     /\ Forall (fun x => Str.contains "/" x = false
                         /\ Str.endswith_any (Str.lower x)
                              [".jpg"; ".jpeg"; ".png"; ".webp"; ".bmp"] = true
                         /\ exists mode, files w !! x = Some (Picture mode)) l)
  /\ (get_office_files extensions file_type w = (Ok l, w') ->
     files w' = files w /\ dirs w' = dirs w
     /\ Forall (fun x => Str.contains "/" x = false
                         /\ path_exists w x = true
                         /\ Str.endswith_any (Str.lower x) extensions = true) l).
Proof.
  unfold get_file_names, get_image_files, get_office_files. unfold_M.
  split; [|split]; intros H.
  - apply (collect_returned _ validate_pdf_file_pure validate_pdf_file_fs)
      in H as (pre & line & _ & _ & _ & Hl & _ & Hf & Hd).
    split; [exact Hf|]. split; [exact Hd|].
    subst l. eapply Forall_impl; [apply Forall_filter_accepts|].
    intros x Hx. by apply validate_pdf_file_ok in Hx.
  - apply (collect_returned _ validate_image_file_pure validate_image_file_fs)
      in H as (pre & line & _ & _ & _ & Hl & _ & Hf & Hd).
    split; [exact Hf|]. split; [exact Hd|].
    subst l. eapply Forall_impl; [apply Forall_filter_accepts|].
    intros x Hx. by apply validate_image_file_ok in Hx.
  - apply (collect_returned _
             (validate_office_file_pure extensions file_type)
             (validate_office_file_fs extensions file_type))
      in H as (pre & line & _ & _ & _ & Hl & _ & Hf & Hd).
    split; [exact Hf|]. split; [exact Hd|].
    subst l. eapply Forall_impl; [apply Forall_filter_accepts|].
    intros x Hx. by apply validate_office_file_ok in Hx.
Qed.

Lemma collected_names_are_valid_witness :
  files (World ["c.pdf"] [pdf_prompt; Validated "a.pdf"; Rejected PdfReadError]
           shelf ∅) = files (start ["a.pdf"; "b.pdf"; "q"; "c.pdf"] shelf)
  /\ dirs (World ["c.pdf"] [pdf_prompt; Validated "a.pdf"; Rejected PdfReadError]
             shelf ∅) = dirs (start ["a.pdf"; "b.pdf"; "q"; "c.pdf"] shelf)
  /\ Forall (fun x => Str.contains "/" x = false
                      /\ Str.endswith (Str.lower x) ".pdf" = true
                      /\ exists pages,
                           files (start ["a.pdf"; "b.pdf"; "q"; "c.pdf"] shelf)
                             !! x = Some (PdfDoc pages)) ["a.pdf"].
Proof.
  apply (collected_names_are_valid
           (start ["a.pdf"; "b.pdf"; "q"; "c.pdf"] shelf) _ ["a.pdf"] [] "").
  vm_compute. reflexivity.
Defined.

(** ** The output filename routine, line by line *)

Lemma get_output_filename_loop_eof default_name lines : forall w,
  Forall (fun l => refused default_name l = true) lines ->
  (get_output_filename_loop default_name lines w).1 = Raise EOFError.
Proof.
  induction lines as [|l lines IH]; intros w H; [reflexivity|].
  apply Forall_cons in H as [Hl H].
  rewrite get_output_filename_loop_step, Hl. by apply IH.
Qed.

Lemma get_output_filename_loop_returned default_name lines : forall w out w',
  get_output_filename_loop default_name lines w = (Ok out, w') ->
  exists pre line rest,
    lines = pre ++ line :: rest
    /\ Forall (fun l => refused default_name l = true) pre
    /\ refused default_name line = false.
Proof.
  induction lines as [|x lines IH]; intros w out w' H; [discriminate H|].
  rewrite get_output_filename_loop_step in H.
  destruct (refused default_name x) eqn:R.
  - apply IH in H as (pre & line & rest & -> & Hpre & Hl).
    exists (x :: pre), line, rest. repeat split; [|done]. by constructor.
  - exists [], x, lines. by repeat split.
Qed.

(** [get_output_filename] takes the first line whose name, once the
    default and the suffix are in, has no directory separator: it returns
    that name, has printed one refusal for each line before it, leaves the
    later lines unread and the disk alone.  An empty line stands for the
    default name.  When every line is refused it ends in the [EOFError] of
    [input()]. *)
Theorem get_output_filename_first_bare_name (default_name : string) (w : world) :
  (forall pre line rest,
     stdin w = pre ++ line :: rest ->
     Forall (fun l => refused default_name l = true) pre ->
     refused default_name line = false ->
     get_output_filename default_name w
     = (Ok (suffixed (entered default_name line)),
        World rest (stdout w ++ replicate (length pre) PathRefused)
              (files w) (dirs w)))
  /\ (Forall (fun l => refused default_name l = true) (stdin w) ->
      (get_output_filename default_name w).1 = Raise EOFError).
Proof.
  unfold get_output_filename. unfold_M. split.
  - intros pre line rest -> Hpre Hline.
    by apply get_output_filename_loop_run.
  - apply get_output_filename_loop_eof.
Qed.

Lemma get_output_filename_first_bare_name_witness :
  get_output_filename "merged.pdf"
    (start ["../up"; "sub/dir.pdf"; "  "; "later"] shelf)
  = (Ok "merged.pdf", World ["later"] [PathRefused; PathRefused] shelf ∅).
Proof.
  destruct (get_output_filename_first_bare_name "merged.pdf"
              (start ["../up"; "sub/dir.pdf"; "  "; "later"] shelf)) as [H _].
  rewrite (H ["../up"; "sub/dir.pdf"] "  " ["later"]).
  - vm_compute. reflexivity.
  - reflexivity.
  - repeat constructor.
  - reflexivity.
Defined.

(** A name that [get_output_filename] returns never has a directory
    separator, so the output always goes to the current directory; and
    asking for the name changes neither files nor directories. *)
Theorem get_output_filename_is_bare (default_name : string) (w w' : world)
    (out : string) :
  get_output_filename default_name w = (Ok out, w') ->
  Str.contains "/" out = false
  /\ Path.dirname out = EmptyString
  /\ files w' = files w /\ dirs w' = dirs w.
Proof.
  unfold get_output_filename. unfold_M. intros H.
  destruct (get_output_filename_loop_returned _ _ _ _ _ H)
    as (pre & line & rest & Hin & Hpre & Hline).
  rewrite Hin, get_output_filename_loop_run in H by done.
  injection H as <- <-. cbn [files dirs].
  split; [exact Hline|]. split; [|done].
  pose proof (dirname_truthy (suffixed (entered default_name line))) as D.
  change Path.sep with "/"%char in D. unfold refused in Hline.
  rewrite Hline in D. unfold Str.truthy in D.
  destruct (Path.dirname _); [reflexivity|discriminate D].
Qed.

Lemma get_output_filename_is_bare_witness :
  Str.contains "/" "report.pdf" = false
  /\ Path.dirname "report.pdf" = EmptyString
  /\ files (World [] [PathRefused] shelf ∅) = files (start ["a/b"; "report"] shelf)
  /\ dirs (World [] [PathRefused] shelf ∅) = dirs (start ["a/b"; "report"] shelf).
Proof.
  apply (get_output_filename_is_bare "merged.pdf"
           (start ["a/b"; "report"] shelf)).
  vm_compute. reflexivity.
Defined.

(** ** The PDF merger, end to end *)

(** Whatever the disk does, [merge_pdfs] returns normally, reads no input,
    and changes nothing but the file under the output name (nothing at all
    when the output cannot be opened); and when the final write fails, the
    lines for the single files are followed by the critical error alone:
    no success and no statistics are printed. *)
Theorem merge_pdfs_touches_only_output (disk : write_outcome)
    (file_paths : list string) (output_filename : string) (w : world) :
  let r := merge_pdfs disk file_paths output_filename w in
  r.1 = Ok tt
  /\ stdin r.2 = stdin w /\ dirs r.2 = dirs w
  /\ (forall p, p <> output_filename -> files r.2 !! p = files w !! p)
  /\ (disk = CannotOpen -> files r.2 = files w)
  /\ (disk <> Written ->
      stdout r.2 = stdout w ++ map (append_report (files w)) file_paths
                     ++ [Critical OSError]).
Proof.
  cbv zeta. rewrite merge_pdfs_run. cbn [fst snd stdin stdout files dirs].
  split; [reflexivity|]. split; [reflexivity|]. split; [reflexivity|].
  split; [|split].
  - intros p Hp. destruct disk; cbn [after_write];
      rewrite ?lookup_insert_ne by done; reflexivity.
  - by intros ->.
  - intros Hd. by destruct disk.
Qed.

Lemma merge_pdfs_touches_only_output_witness :
  files (merge_pdfs CannotOpen ["a.pdf"; "b.pdf"] "merged.pdf"
           (start [] shelf)).2 = shelf.
Proof.
  apply (merge_pdfs_touches_only_output CannotOpen ["a.pdf"; "b.pdf"]
           "merged.pdf" (start [] shelf)).
  reflexivity.
Defined.

Lemma last_snoc2 {A} (l : list A) (a b : A) : last (l ++ [a; b]) = Some b.
Proof. change [a; b] with ([a] ++ [b]). by rewrite app_assoc, last_snoc. Qed.

(** When the user quits the PDF collector without a single accepted file,
    [pdf_merger] prints its warning and returns: it does not ask for an
    output name, reads nothing past the quit line and leaves the disk as
    it was. *)
Theorem pdf_merger_nothing_selected (disk : write_outcome) (w : world)
    (pre : list string) (line : string) (rest : list string) :
  stdin w = pre ++ line :: rest ->
  Forall (fun l => is_quit l = false) pre ->
  is_quit line = true ->
  List.filter (accepts validate_pdf_file w) (map Str.strip pre) = [] ->
  pdf_merger disk w
  = (Ok tt,
     World rest
       (stdout w ++ [Say "=== PDF Merger ==="; pdf_prompt]
          ++ map (echo validate_pdf_file w) (map Str.strip pre)
          ++ [Say "No valid PDF files selected. Returning to menu."])
       (files w) (dirs w)).
Proof.
  intros Hin Hpre Hq Hnone.
  unfold pdf_merger, get_file_names, collect. unfold_M.
  cbn [stdin set_stdout]. rewrite Hin.
  rewrite (collect_loop_stops validate_pdf_file validate_pdf_file_pure
             validate_pdf_file_fs) by done.
  rewrite (accepts_fs validate_pdf_file validate_pdf_file_fs
             (set_stdout _ (set_stdout _ w)) w),
          (echo_fs validate_pdf_file validate_pdf_file_fs
             (set_stdout _ (set_stdout _ w)) w) by reflexivity.
  rewrite Hnone. cbn [app stdin stdout files dirs set_stdout].
  by rewrite <- !app_assoc.
Qed.

Lemma pdf_merger_nothing_selected_witness :
  pdf_merger Written (start ["b.pdf"; "nothing.pdf"; "q"; "x"] shelf)
  = (Ok tt,
     World ["x"]
       [Say "=== PDF Merger ==="; pdf_prompt;
        Rejected PdfReadError;
        Rejected (FileNotFoundError "File 'nothing.pdf' not found");
        Say "No valid PDF files selected. Returning to menu."]
       shelf ∅).
Proof.
  rewrite (pdf_merger_nothing_selected Written _
             ["b.pdf"; "nothing.pdf"] "q" ["x"]).
  - vm_compute. reflexivity.
  - reflexivity.
  - repeat constructor.
  - reflexivity.
  - reflexivity.
Defined.



(** ** The blog driver when nothing fails *)

(** When the fetch answers with a status outside 400..599, readability
    gives a summary and a title, and the renderer writes its file,
    [convert_blog] leaves under the output name the summary behind the
    fixed style block and a newline, prints the three progress lines, the
    success line and the title, and changes nothing else. *)
Theorem convert_blog_success (net : web) (url output_filename : string)
    (w : world) (status : Z) (text summary title : string) :
  http_get net url = Some (status, text) ->
  ~ (400 <= status < 600)%Z ->
  doc_summary net text = Some summary ->
  wkhtmltopdf net = Written ->
  doc_title net text = Some title ->
  convert_blog net url output_filename w
  = (Ok tt,
     World (stdin w)
       (stdout w ++ [Say "Downloading content..."; Say "Processing content...";
                     Say "Generating PDF..."; Created output_filename;
                     Title title])
       (<[output_filename := PdfDoc [pdf_styles +:+ newline +:+ summary]]>
          (files w))
       (dirs w)).
Proof.
  intros Hget Hstatus Hsum Hw Htitle.
  unfold convert_blog, convert_blog_try, requests_get, raise_for_status,
    write_file, add_pdf_styles. unfold_M.
  rewrite Hget. cbn [fst snd].
  replace ((400 <=? status)%Z && (status <? 600)%Z) with false
    by (symmetry; apply andb_false_iff; lia).
  rewrite Hsum, Hw. unfold_M. rewrite Htitle.
  cbn [fst snd stdin stdout files dirs set_stdout set_files].
  by rewrite <- !app_assoc.
Qed.

Lemma convert_blog_success_witness :
  convert_blog
    (Web (fun _ => Some (301%Z, "<html>moved</html>"))
         (fun _ => Some "<p>body</p>") (fun _ => Some "A post") Written)
    "https://example.com/blog/1" "blog_post.pdf" (start [] ∅)
  = (Ok tt,
     World []
       [Say "Downloading content..."; Say "Processing content...";
        Say "Generating PDF..."; Created "blog_post.pdf"; Title "A post"]
       {[ "blog_post.pdf" := PdfDoc [pdf_styles +:+ newline +:+ "<p>body</p>"] ]}
       ∅).
Proof.
  rewrite (convert_blog_success _ _ _ _ 301%Z "<html>moved</html>"
             "<p>body</p>" "A post");
    [vm_compute; reflexivity|reflexivity|lia|reflexivity..].
Defined.

(** ** What a driver with the removing handler can touch *)

Lemma failed_conversion_handler_frame (e : exn) (output_filename : string)
    (w : world) :
  let r := (print (ConversionFailed e);;
            w' ← get;
            if path_exists w' output_filename then os_remove output_filename
            else mret tt) w in
  stdin r.2 = stdin w
  /\ forall p, p <> output_filename -> files r.2 !! p = files w !! p.
Proof.
  cbv zeta. unfold os_remove. unfold_M.
  destruct (path_exists _ output_filename); cbv beta;
    cbn [set_stdout files]; [destruct (files w !! output_filename)|];
    cbn [fst snd set_files set_stdout stdin files]; split; try reflexivity;
    intros p Hp; by rewrite ?lookup_delete_ne.
Qed.

Lemma write_file_frame err disk name c w :
  let r := write_file err disk name c w in
  stdin r.2 = stdin w /\ dirs r.2 = dirs w /\ stdout r.2 = stdout w
  /\ forall p, p <> name -> files r.2 !! p = files w !! p.
Proof.
  cbv zeta. unfold write_file. destruct disk; unfold_M;
    cbn [fst snd set_files stdin stdout files dirs]; repeat split;
    intros p Hp; by rewrite ?lookup_insert_ne.
Qed.

Lemma convert_blog_try_frame net url output_filename w :
  let r := convert_blog_try net url output_filename w in
  stdin r.2 = stdin w
  /\ forall p, p <> output_filename -> files r.2 !! p = files w !! p.
Proof.
  cbv zeta. unfold convert_blog_try, requests_get, raise_for_status.
  unfold_M.
  destruct (http_get net url) as [[status text]|];
    cbn [fst snd set_stdout stdin files]; [|by split].
  destruct ((400 <=? status)%Z && (status <? 600)%Z);
    cbn [fst snd set_stdout stdin files]; [by split|].
  destruct (doc_summary net text) as [summary|];
    cbn [fst snd set_stdout stdin files]; [|by split].
  match goal with
  | |- context [write_file ?err ?d ?n ?c ?w1] =>
      destruct (write_file_frame err d n c w1) as (Hi & _ & _ & Hf);
      destruct (write_file err d n c w1) as [[[]|e] w2]
  end; cbn [fst snd set_stdout stdin files] in *; [|by split].
  destruct (doc_title net text) as [title|];
    cbn [fst snd set_stdout stdin files]; by split.
Qed.

(** No failure escapes [convert_blog], and it stays within the output
    name: unless the output name is that of a directory, the driver
    returns normally whatever the network, readability and the renderer
    do; it reads no input, and no file other than the one under the output
    name is created, changed or removed. *)
Theorem convert_blog_is_contained (net : web) (url output_filename : string)
    (w : world) :
  let r := convert_blog net url output_filename w in
  stdin r.2 = stdin w
  /\ dirs r.2 = dirs w
  /\ (forall p, p <> output_filename -> files r.2 !! p = files w !! p)
  /\ (output_filename ∉ dirs w -> r.1 = Ok tt).
Proof.
  cbv zeta. unfold convert_blog, try_except.
  destruct (convert_blog_try_outcome net url output_filename w) as [Hd _].
  destruct (convert_blog_try_frame net url output_filename w) as [Hi Hf].
  destruct (convert_blog_try net url output_filename w) as [[[]|e] w1];
    cbn [fst snd] in *; [by repeat split|].
  destruct (failed_conversion_handler e output_filename w1)
    as (_ & _ & H3 & H4).
  destruct (failed_conversion_handler_frame e output_filename w1)
    as (H5 & H6). cbv zeta in *.
  split; [congruence|]. split; [congruence|]. split.
  - intros p Hp. rewrite H6 by done. by apply Hf.
  - intros Hn. apply H4. by rewrite Hd.
Qed.

Lemma convert_blog_is_contained_witness :
  (convert_blog not_found_site "https://example.com/blog/gone" "a.pdf"
     (start [] shelf)).1 = Ok tt.
Proof.
  apply (convert_blog_is_contained not_found_site
           "https://example.com/blog/gone" "a.pdf" (start [] shelf)).
  vm_compute. set_solver.
Defined.

(** ** The image driver, case by case *)

Lemma opened_paths fs paths :
  map img_path (omap (opened fs) paths) = List.filter (openable fs) paths.
Proof.
  induction paths as [|p paths IH]; [reflexivity|].
  cbn [omap list_omap List.filter]. unfold opened at 1, openable at 1.
  destruct (fs !! p) as [[pages|mode|]|]; cbn [map img_path];
    by rewrite ?IH.
Qed.

Lemma opened_none fs paths :
  omap (opened fs) paths = [] <-> List.filter (openable fs) paths = [].
Proof.
  rewrite <- opened_paths. by destruct (omap (opened fs) paths).
Qed.

(** When PIL opens none of the paths, [convert_images_to_pdf] reports each
    failure, prints its warning and returns normally; nothing is written,
    and a file that already has the output name is left alone. *)
Theorem convert_images_without_images (disk : write_outcome)
    (image_paths : list string) (output_filename : string) (w : world) :
  List.filter (openable (files w)) image_paths = [] ->
  convert_images_to_pdf disk image_paths output_filename w
  = (Ok tt,
     World (stdin w)
       (stdout w ++ map (open_report (files w)) image_paths
          ++ [Say "No valid images to convert"])
       (files w) (dirs w)).
Proof.
  intros Hnone. apply opened_none in Hnone.
  unfold convert_images_to_pdf. unfold_M. rewrite open_images_run.
  cbn [fst snd app]. rewrite Hnone.
  cbn [stdin stdout files dirs set_stdout]. by rewrite <- app_assoc.
Qed.

Lemma convert_images_without_images_witness :
  convert_images_to_pdf Written ["notes.txt"; "gone.png"] "images.pdf"
    (start [] album)
  = (Ok tt,
     World []
       [Failed "notes.txt" UnidentifiedImageError; Failed "gone.png" OSError;
        Say "No valid images to convert"]
       album ∅).
Proof.
  rewrite (convert_images_without_images Written); vm_compute; reflexivity.
Defined.

(** When at least one path opens and the save goes through,
    [convert_images_to_pdf] returns normally, having read no input and
    printed one line for each path, in the order of the input list, then
    the success and the number of images it opened (repetitions counted,
    paths that do not open left out).  A PDF document is then under the
    output name, and no other file has changed. *)
Theorem convert_images_success (image_paths : list string)
    (output_filename : string) (w : world) :
  let shown := List.filter (openable (files w)) image_paths in
  shown <> [] ->
  let r := convert_images_to_pdf Written image_paths output_filename w in
  r.1 = Ok tt
  /\ stdin r.2 = stdin w
  /\ dirs r.2 = dirs w
  /\ stdout r.2
     = stdout w ++ map (open_report (files w)) image_paths
         ++ [Created output_filename; Count (length shown)]
  /\ (exists pages, files r.2 !! output_filename = Some (PdfDoc pages))
  /\ (forall p, p <> output_filename -> files r.2 !! p = files w !! p).
Proof.
  cbv zeta. intros Hsome. rewrite <- opened_paths in *.
  unfold convert_images_to_pdf, save_all, write_file. unfold_M.
  rewrite open_images_run. cbn [fst snd app].
  destruct (omap (opened (files w)) image_paths) as [|first others];
    [done|].
  cbn [fst snd stdin stdout files dirs set_stdout set_files map length].
  split; [reflexivity|]. split; [reflexivity|]. split; [reflexivity|].
  split; [by rewrite <- !app_assoc, length_map|].
  split.
  - eexists. apply lookup_insert_eq.
  - intros p Hp. by rewrite lookup_insert_ne.
Qed.

Lemma convert_images_success_witness :
  let r := convert_images_to_pdf Written
             ["scan.png"; "notes.txt"; "photo.png"; "scan.png"] "images.pdf"
             (start [] album) in
  r.1 = Ok tt
  /\ stdout r.2
     = [Processed "scan.png"; Failed "notes.txt" UnidentifiedImageError;
        Processed "photo.png"; Processed "scan.png";
        Created "images.pdf"; Count 3]
  /\ files r.2 !! "notes.txt" = Some Bytes.
Proof.
  destruct (convert_images_success
              ["scan.png"; "notes.txt"; "photo.png"; "scan.png"] "images.pdf"
              (start [] album)) as (H1 & _ & _ & H4 & _ & H6);
    [vm_compute; discriminate|].
  cbv zeta. split; [exact H1|]. split.
  - rewrite H4. vm_compute. reflexivity.
  - rewrite H6 by discriminate. reflexivity.
Defined.

Lemma convert_images_to_pdf_failed disk image_paths output_filename w :
  omap (opened (files w)) image_paths <> [] ->
  disk <> Written ->
  exists w2,
    dirs w2 = dirs w
    /\ (forall p, p <> output_filename -> files w2 !! p = files w !! p)
    /\ convert_images_to_pdf disk image_paths output_filename w
       = (print (ConversionFailed OSError);;
          w' ← get;
          if path_exists w' output_filename then os_remove output_filename
          else mret tt) w2.
Proof.
  intros Hsome Hdisk.
  unfold convert_images_to_pdf, save_all, write_file. unfold_M.
  rewrite open_images_run. cbn [app].
  destruct (omap (opened (files w)) image_paths) as [|first others];
    [done|].
  destruct disk; [done|..]; unfold_M; eexists; (split; [|split; [|reflexivity]]);
    cbn [dirs files set_stdout set_files]; try reflexivity;
    intros p Hp; by rewrite ?lookup_insert_ne.
Qed.

(** When at least one path opens and the save fails, whether or not it had
    begun to write, [convert_images_to_pdf] reports the failure as the last
    thing it prints and no file is left under the output name; no other
    file is touched, and unless the output name is the name of a directory
    the driver returns normally. *)
Theorem convert_images_failed_save (disk : write_outcome)
    (image_paths : list string) (output_filename : string) (w : world) :
  List.filter (openable (files w)) image_paths <> [] ->
  disk <> Written ->
  let r := convert_images_to_pdf disk image_paths output_filename w in
  files r.2 !! output_filename = None
  /\ last (stdout r.2) = Some (ConversionFailed OSError)
  /\ (forall p, p <> output_filename -> files r.2 !! p = files w !! p)
  /\ (output_filename ∉ dirs w -> r.1 = Ok tt).
Proof.
  cbv zeta. intros Hsome Hdisk. rewrite <- opened_paths in Hsome.
  destruct (convert_images_to_pdf_failed disk image_paths output_filename w)
    as (w2 & Hd & Hf & ->); [by destruct (omap _ _)|done|].
  destruct (failed_conversion_handler OSError output_filename w2)
    as (H1 & H2 & _ & H4).
  destruct (failed_conversion_handler_frame OSError output_filename w2)
    as (_ & H6). cbv zeta in *.
  split; [exact H1|]. split; [exact H2|]. split.
  - intros p Hp. rewrite H6 by done. by apply Hf.
  - intros Hn. apply H4. by rewrite Hd.
Qed.

Lemma convert_images_failed_save_witness :
  let r := convert_images_to_pdf Interrupted ["photo.png"] "images.pdf"
             (start [] (<["images.pdf" := PdfDoc ["old"]]> album)) in
  files r.2 !! "images.pdf" = None
  /\ last (stdout r.2) = Some (ConversionFailed OSError).
Proof.
  destruct (convert_images_failed_save Interrupted ["photo.png"] "images.pdf"
              (start [] (<["images.pdf" := PdfDoc ["old"]]> album)))
    as (H1 & H2 & _); [vm_compute; discriminate|discriminate|].
  cbv zeta. by split.
Defined.

(** When the user quits the image collector without a single accepted
    file, [image_to_pdf] prints its warning and returns: it does not ask
    for an output name, reads nothing past the quit line and leaves the
    disk as it was. *)
Theorem image_to_pdf_nothing_selected (disk : write_outcome) (w : world)
    (pre : list string) (line : string) (rest : list string) :
  stdin w = pre ++ line :: rest ->
  Forall (fun l => is_quit l = false) pre ->
  is_quit line = true ->
  List.filter (accepts validate_image_file w) (map Str.strip pre) = [] ->
  image_to_pdf disk w
  = (Ok tt,
     World rest
       (stdout w ++ [Say "=== Image to PDF Converter ==="; image_prompt]
          ++ map (echo validate_image_file w) (map Str.strip pre)
          ++ [Say "No valid image files selected. Returning to menu."])
       (files w) (dirs w)).
Proof.
  intros Hin Hpre Hq Hnone.
  unfold image_to_pdf, get_image_files, collect. unfold_M.
  cbn [stdin set_stdout]. rewrite Hin.
  rewrite (collect_loop_stops validate_image_file validate_image_file_pure
             validate_image_file_fs) by done.
  rewrite (accepts_fs validate_image_file validate_image_file_fs
             (set_stdout _ (set_stdout _ w)) w),
          (echo_fs validate_image_file validate_image_file_fs
             (set_stdout _ (set_stdout _ w)) w) by reflexivity.
  rewrite Hnone. cbn [app stdin stdout files dirs set_stdout].
  by rewrite <- !app_assoc.
Qed.

Lemma image_to_pdf_nothing_selected_witness :
  image_to_pdf Written (start ["notes.txt"; "q"; "x"] album)
  = (Ok tt,
     World ["x"]
       [Say "=== Image to PDF Converter ==="; image_prompt;
        Rejected (ValueError "Not a supported image file");
        Say "No valid image files selected. Returning to menu."]
       album ∅).
Proof.
  rewrite (image_to_pdf_nothing_selected Written _ ["notes.txt"] "q" ["x"]).
  - vm_compute. reflexivity.
  - reflexivity.
  - repeat constructor.
  - reflexivity.
  - reflexivity.
Defined.

(** ** The office driver, conversion by conversion *)

(** [convert_office_to_pdf] never raises: every failure of the converter
    is caught, reported and turned into the answer [None].  An answer
    [Some p] names a file that exists when the function returns, namely
    the input's base name with its extension replaced by [.pdf], inside
    the temporary directory.  When the converter exits with an error the
    answer is [None] and no file has changed. *)
Theorem convert_office_to_pdf_never_raises (soffice : converter)
    (input_path temp_dir file_type : string) (w : world) :
  let r := convert_office_to_pdf soffice input_path temp_dir file_type w in
  exists res,
    r.1 = Ok res
    /\ stdin r.2 = stdin w /\ dirs r.2 = dirs w
    /\ (forall p, res = Some p ->
          path_exists r.2 p = true
          /\ p = Path.join temp_dir
                   ((Path.splitext (Path.basename input_path)).1 +:+ ".pdf"))
    /\ (res = None -> exists e, last (stdout r.2) = Some (Failed input_path e))
    /\ (soffice input_path = None -> res = None /\ files r.2 = files w).
Proof.
  cbv zeta.
  destruct (convert_office_to_pdf_run soffice input_path temp_dir file_type w)
    as (res & w' & -> & Hi & Hd & Hs & Hn & Hf).
  exists res. cbn [fst snd]. repeat split; try done.
  - by apply Hs.
  - by apply Hs.
  - intros E. destruct (Hn E) as [e He]. exists e. by rewrite He, last_snoc.
  - by apply Hf.
  - by apply Hf.
Qed.

Lemma convert_office_to_pdf_never_raises_witness :
  exists res,
    (convert_office_to_pdf working_soffice "report.v2.docx" "/tmp/t" "Word"
       (start [] desk)).1 = Ok res
    /\ res = Some "/tmp/t/report.v2.pdf".
Proof.
  destruct (convert_office_to_pdf_never_raises working_soffice
              "report.v2.docx" "/tmp/t" "Word" (start [] desk))
    as (res & H & _).
  exists res. split; [exact H|].
  vm_compute in H. by injection H as <-.
Defined.



(** The example of the specification: of three files, the converter
    failing on one, the other two are merged, the report reads 2
    succeeded, 1 failed, and the temporary directory is gone. *)
Example office_two_of_three :
  handle_office_conversion
    (fun p => if String.eqb p "b.doc" then None else working_soffice p)
    Written "/tmp/tmpw0rd" "Word" [".docx"; ".doc"] "word_merged.pdf"
    (start ["a.docx"; "b.doc"; "a.docx"; "q"; ""] desk)
  = (Ok tt,
     World []
       [Say "=== Word to PDF Converter ==="; office_prompt "Word";
        Validated "a.docx"; Validated "b.doc"; Validated "a.docx";
        Added "a.docx"; Failed "b.doc" CalledProcessError; Added "a.docx";
        Created "word_merged.pdf"; Stats 2 1]
       (<["word_merged.pdf" := PdfDoc ["a.docx"; "a.docx"]]> desk) ∅).
Proof. vm_compute. reflexivity. Qed.

(** When the user quits the office collector without a single accepted
    file, [handle_office_conversion] prints its warning and returns: it
    asks for no output name, reads nothing past the quit line, creates no
    temporary directory and leaves the disk as it was. *)
Theorem handle_office_conversion_nothing_selected (soffice : converter)
    (disk : write_outcome) (tmpname file_type : string)
    (extensions : list string) (default_output : string) (w : world)
    (pre : list string) (line : string) (rest : list string) :
  let validate := fun n => validate_office_file n extensions file_type in
  stdin w = pre ++ line :: rest ->
  Forall (fun l => is_quit l = false) pre ->
  is_quit line = true ->
  List.filter (accepts validate w) (map Str.strip pre) = [] ->
  handle_office_conversion soffice disk tmpname file_type extensions
    default_output w
  = (Ok tt,
     World rest
       (stdout w
          ++ [Say ("=== " +:+ file_type +:+ " to PDF Converter ===");
              office_prompt file_type]
          ++ map (echo validate w) (map Str.strip pre)
          ++ [Say ("No valid " +:+ file_type
                   +:+ " files selected. Returning to menu.")])
       (files w) (dirs w)).
Proof.
  cbv zeta. intros Hin Hpre Hq Hnone.
  unfold handle_office_conversion, get_office_files, collect. unfold_M.
  cbn [stdin set_stdout]. rewrite Hin.
  rewrite (collect_loop_stops
             (fun n => validate_office_file n extensions file_type)
             (validate_office_file_pure extensions file_type)
             (validate_office_file_fs extensions file_type)) by done.
  rewrite (accepts_fs (fun n => validate_office_file n extensions file_type)
             (validate_office_file_fs extensions file_type)
             (set_stdout _ (set_stdout _ w)) w),
          (echo_fs (fun n => validate_office_file n extensions file_type)
             (validate_office_file_fs extensions file_type)
             (set_stdout _ (set_stdout _ w)) w) by reflexivity.
  rewrite Hnone. cbn [app stdin stdout files dirs set_stdout].
  by rewrite <- !app_assoc.
Qed.

Lemma handle_office_conversion_nothing_selected_witness :
  excel_to_pdf working_soffice Written "/tmp/tmpxl"
    (start ["a.docx"; "Q"; "x"] desk)
  = (Ok tt,
     World ["x"]
       [Say "=== Excel to PDF Converter ==="; office_prompt "Excel";
        Rejected (ValueError "Not a supported Excel file");
        Say "No valid Excel files selected. Returning to menu."]
       desk ∅).
Proof.
  unfold excel_to_pdf.
  rewrite (handle_office_conversion_nothing_selected working_soffice Written
             "/tmp/tmpxl" "Excel" [".xlsx"; ".xls"] "excel_merged.pdf" _
             ["a.docx"] "Q" ["x"]).
  - vm_compute. reflexivity.
  - reflexivity.
  - repeat constructor.
  - reflexivity.
  - reflexivity.
Defined.

(** ** Asking for the URL *)

Lemma get_valid_url_loop_returns lib n : forall lines w res w',
  (length lines <= n)%nat ->
  get_valid_url_loop lib lines w = (Ok res, w') ->
  files w' = files w /\ dirs w' = dirs w
  /\ match res with
     | None =>
         exists pre line,
           lines = pre ++ line :: stdin w' /\ is_quit line = true
     | Some url =>
         validators_url lib url = true
         /\ Str.lower url <> "q"
         /\ ((is_blog_url lib url = true
              /\ exists pre line,
                   lines = pre ++ line :: stdin w' /\ url = Str.strip line)
             \/ (is_blog_url lib url = false
                 /\ exists pre line answer,
                      lines = pre ++ line :: answer :: stdin w'
                      /\ url = Str.strip line
                      /\ Str.lower answer = "y"))
     end.
Proof.
  induction n as [|n IH]; intros lines w res w' Hlen H.
  { destruct lines; [discriminate H|cbn in Hlen; lia]. }
  destruct lines as [|line rest]; [discriminate H|].
  cbn [length] in Hlen. cbn [get_valid_url_loop] in H. unfold_M. cbn zeta in H.
  destruct (String.eqb (Str.lower (Str.strip line)) "q") eqn:Q.
  { injection H as <- <-. cbn [files dirs stdin set_stdin].
    repeat split. by exists [], line. }
  apply String.eqb_neq in Q.
  destruct (validators_url lib (Str.strip line)) eqn:V; cbn [negb] in H.
  2:{ apply IH in H as (Hf & Hd & Hres); [|lia].
      cbn [files dirs set_stdout set_stdin] in *.
      split; [exact Hf|]. split; [exact Hd|].
      destruct res as [url|].
      - destruct Hres as (Hv & Hq & [(Hb & pre & l & -> & Hu)
                                    |(Hb & pre & l & a & -> & Hu & Ha)]).
        + split; [exact Hv|]. split; [exact Hq|]. left.
          split; [exact Hb|]. by exists (line :: pre), l.
        + split; [exact Hv|]. split; [exact Hq|]. right.
          split; [exact Hb|]. by exists (line :: pre), l, a.
      - destruct Hres as (pre & l & -> & Hl). by exists (line :: pre), l. }
  destruct (is_blog_url lib (Str.strip line)) eqn:B; cbn [negb] in H.
  { injection H as <- <-. cbn [files dirs stdin set_stdin].
    repeat split; [exact V|exact Q|]. left. split; [exact B|].
    by exists [], line. }
  destruct rest as [|answer rest']; [discriminate H|].
  cbn [fst snd] in H. cbv beta in H.
  destruct (String.eqb (Str.lower answer) "y") eqn:Y; cbn [negb] in H.
  { apply String.eqb_eq in Y. injection H as <- <-.
    cbn [files dirs stdin set_stdin set_stdout].
    repeat split; [exact V|exact Q|]. right. split; [exact B|].
    by exists [], line, answer. }
  apply IH in H as (Hf & Hd & Hres); [|cbn [length] in Hlen; lia].
  cbn [files dirs set_stdout set_stdin] in *.
  split; [exact Hf|]. split; [exact Hd|].
  destruct res as [url|].
  - destruct Hres as (Hv & Hq & [(Hb & pre & l & -> & Hu)
                                |(Hb & pre & l & a & -> & Hu & Ha)]).
    + split; [exact Hv|]. split; [exact Hq|]. left.
      split; [exact Hb|]. by exists (line :: answer :: pre), l.
    + split; [exact Hv|]. split; [exact Hq|]. right.
      split; [exact Hb|]. by exists (line :: answer :: pre), l, a.
  - destruct Hres as (pre & l & -> & Hl).
    by exists (line :: answer :: pre), l.
Qed.

(** A URL that [get_valid_url] returns is one of the lines read, stripped;
    the format checker accepted it; and either it looks like a blog post,
    or the line read right after it lowers to [y]: the heuristic alone
    never turns a well-formed URL down when the user insists, and never
    lets one through when the user does not.  The answer [None] is given
    only at a line that, stripped and lowered, is [q].  Asking changes
    neither files nor directories. *)
Theorem get_valid_url_returns (lib : url_lib) (w w' : world)
    (res : option string) :
  get_valid_url lib w = (Ok res, w') ->
  files w' = files w /\ dirs w' = dirs w
  /\ match res with
     | None =>
         exists pre line,
           stdin w = pre ++ line :: stdin w' /\ is_quit line = true
     | Some url =>
         validators_url lib url = true
         /\ Str.lower url <> "q"
         /\ ((is_blog_url lib url = true
              /\ exists pre line,
                   stdin w = pre ++ line :: stdin w' /\ url = Str.strip line)
             \/ (is_blog_url lib url = false
                 /\ exists pre line answer,
                      stdin w = pre ++ line :: answer :: stdin w'
                      /\ url = Str.strip line
                      /\ Str.lower answer = "y"))
     end.
Proof.
  unfold get_valid_url. unfold_M. cbn [stdin set_stdout]. intros H.
  by apply (get_valid_url_loop_returns lib (length (stdin w))) in H.
Qed.

Lemma get_valid_url_returns_witness :
  validators_url plain_urls "https://example.com/news/1" = true
  /\ Str.lower "https://example.com/news/1" <> "q".
Proof.
  destruct (get_valid_url_returns plain_urls
              (start ["ftp:x"; "https://example.com/news/1"; " y";
                      " https://example.com/news/1 "; "Y"; "rest"] ∅)
              (World ["rest"]
                 [Say "Enter blog post URL (type 'q' to return):";
                  Say "Invalid URL format";
                  Say "This doesn't appear to be a blog post URL";
                  Say "This doesn't appear to be a blog post URL"] ∅ ∅)
              (Some "https://example.com/news/1"))
    as (_ & _ & Hv & Hq & _); [vm_compute; reflexivity|].
  by split.
Defined.

(** ** A session at the menus *)

Example session_merge_then_exit :
  main_loop fair_weather 3
    (start ["1"; "a.pdf"; "q"; "out"; ""; "7"; ""; "4"; "unread"] shelf)
  = Some (Ok tt,
      World ["unread"]
        [Say "=== PDF Master ==="; Say "1. Merge PDF Files";
         Say "2. Blog to PDF Converter"; Say "3. Create PDF"; Say "4. Exit";
         Say "=== PDF Merger ==="; pdf_prompt; Validated "a.pdf";
         Added "a.pdf"; Created "out.pdf"; Stats 1 0;
         Say "=== PDF Master ==="; Say "1. Merge PDF Files";
         Say "2. Blog to PDF Converter"; Say "3. Create PDF"; Say "4. Exit";
         Say "Invalid choice!";
         Say "=== PDF Master ==="; Say "1. Merge PDF Files";
         Say "2. Blog to PDF Converter"; Say "3. Create PDF"; Say "4. Exit";
         Say "Exiting..."]
        (<["out.pdf" := PdfDoc ["a1"; "a2"]]> shelf) ∅).
Proof. vm_compute. reflexivity. Qed.

(** ** Input is only ever consumed *)

Section Consumes.

Context {A B : Type}.

Lemma consumes_ret (a : A) : consumes (mret a).
Proof. intros w r w' [= <- <-]. lia. Qed.

Lemma consumes_raise (e : exn) : consumes (@raise A e).
Proof. intros w r w' [= <- <-]. lia. Qed.

Lemma consumes_bind (m : M A) (k : A -> M B) :
  consumes m -> (forall a, consumes (k a)) -> consumes (m ≫= k).
Proof.
  intros Hm Hk w r w'. unfold mbind, M_bind.
  destruct (m w) as [[a|e] w1] eqn:E; intros H.
  - apply Hm in E. apply Hk in H. lia.
  - injection H as <- <-. by apply Hm in E.
Qed.

Lemma consumes_try_except (m : M A) (h : exn -> M A) :
  consumes m -> (forall e, consumes (h e)) -> consumes (try_except m h).
Proof.
  intros Hm Hh w r w'. unfold try_except.
  destruct (m w) as [[a|e] w1] eqn:E; intros H.
  - injection H as <- <-. by apply Hm in E.
  - apply Hm in E. apply Hh in H. lia.
Qed.

Lemma consumes_try_finally (m : M A) (f : M unit) :
  consumes m -> consumes f -> consumes (try_finally m f).
Proof.
  intros Hm Hf w r w'. unfold try_finally.
  destruct (m w) as [r1 w1] eqn:E. destruct (f w1) as [[[]|e] w2] eqn:F;
    intros [= <- <-]; apply Hm in E; apply Hf in F; lia.
Qed.

End Consumes.

Lemma consumes_keeps {A} (m : M A) :
  (forall w, stdin (m w).2 = stdin w) -> consumes m.
Proof.
  intros H w r w' E. specialize (H w). rewrite E in H. cbn in H. rewrite H. lia.
Qed.

Lemma consumes_print e : consumes (print e).
Proof. by apply consumes_keeps. Qed.

Lemma consumes_get : consumes get.
Proof. by apply consumes_keeps. Qed.

Lemma consumes_input : consumes input.
Proof.
  intros w r w'. unfold input. destruct (stdin w) as [|l rest] eqn:E;
    intros [= <- <-]; cbn [stdin set_stdin]; rewrite ?E; cbn [length]; lia.
Qed.

Lemma consumes_read_pdf path : consumes (read_pdf path).
Proof.
  apply consumes_keeps. intros w. unfold read_pdf.
  by destruct (files w !! path) as [[]|].
Qed.

Lemma consumes_Image_open path : consumes (Image_open path).
Proof.
  apply consumes_keeps. intros w. unfold Image_open.
  by destruct (files w !! path) as [[]|].
Qed.

Lemma consumes_write_file err disk name c :
  consumes (write_file err disk name c).
Proof.
  apply consumes_keeps. intros w.
  by destruct (write_file_frame err disk name c w) as [H _].
Qed.

Lemma consumes_os_remove p : consumes (os_remove p).
Proof.
  apply consumes_keeps. intros w. unfold os_remove.
  by destruct (files w !! p).
Qed.

Lemma consumes_cleanup temp_dir : consumes (cleanup temp_dir).
Proof. by apply consumes_keeps. Qed.

Lemma consumes_TemporaryDirectory name : consumes (TemporaryDirectory name).
Proof. by apply consumes_keeps. Qed.

Lemma consumes_release temp_dir : consumes (release temp_dir).
Proof.
  unfold release. apply consumes_bind; [apply consumes_get|intros w].
  destruct (bool_decide _); [apply consumes_cleanup|apply consumes_ret].
Qed.

Lemma consumes_run_libreoffice soffice temp_dir input_path :
  consumes (run_libreoffice soffice temp_dir input_path).
Proof.
  apply consumes_keeps. intros w. unfold run_libreoffice.
  by destruct (soffice input_path).
Qed.

Lemma consumes_from_option {A} e (o : option A) : consumes (from_option e o).
Proof. destruct o; [apply consumes_ret|apply consumes_raise]. Qed.

(** Breaks a computation built from the parts above into those parts. *)
Ltac consumes_step :=
  first
    [ apply consumes_ret | apply consumes_raise | apply consumes_print
    | apply consumes_get | apply consumes_input | apply consumes_read_pdf
    | apply consumes_Image_open | apply consumes_write_file
    | apply consumes_os_remove | apply consumes_cleanup
    | apply consumes_TemporaryDirectory | apply consumes_run_libreoffice
    | apply consumes_from_option
    | assumption
    | match goal with H : forall _, consumes _ |- _ => apply H end
    | apply consumes_bind; [|intros ?]
    | apply consumes_try_except; [|intros ?]
    | apply consumes_try_finally
    | match goal with
      | |- consumes (if ?b then _ else _) => destruct b
      | |- consumes (match ?x with _ => _ end) => destruct x
      | |- consumes (let _ := _ in _) => cbv zeta
      end ].

Ltac consumes_all := repeat consumes_step.

Lemma consumes_validate_pdf_file n : consumes (validate_pdf_file n).
Proof. unfold validate_pdf_file. consumes_all. Qed.

Lemma consumes_validate_image_file n : consumes (validate_image_file n).
Proof. unfold validate_image_file. consumes_all. Qed.

Lemma consumes_validate_office_file n exts ft :
  consumes (validate_office_file n exts ft).
Proof. unfold validate_office_file. consumes_all. Qed.

Lemma collect_loop_consumes validate :
  (forall n, consumes (validate n)) ->
  forall lines acc w r w',
    collect_loop validate lines acc w = (r, w') ->
    (length (stdin w') <= Nat.max (length (stdin w)) (length lines))%nat.
Proof.
  intros Hv. induction lines as [|line rest IH]; intros acc w r w' H.
  - injection H as <- <-. lia.
  - cbn [collect_loop] in H. unfold mbind at 1 in H. unfold M_bind at 1 in H.
    unfold modify in H. cbv zeta in H.
    destruct (String.eqb (Str.lower (Str.strip line)) "q").
    + injection H as <- <-. cbn [stdin set_stdin length]. lia.
    + unfold mbind at 1 in H. unfold M_bind at 1 in H.
      match type of H with
      | context [try_except ?m ?h (set_stdin rest w)] =>
          assert (consumes (try_except m h)) as Hc by consumes_all;
          destruct (try_except m h (set_stdin rest w)) as [[a|e] w1] eqn:E;
          apply Hc in E; cbn [stdin set_stdin] in E
      end.
      * apply IH in H. cbn [length]. lia.
      * injection H as <- <-. cbn [length]. lia.
Qed.

Lemma consumes_collect validate :
  (forall n, consumes (validate n)) -> consumes (collect validate).
Proof.
  intros Hv w r w'. unfold collect, get. unfold mbind, M_bind.
  intros H. apply (collect_loop_consumes _ Hv) in H. lia.
Qed.

Lemma get_output_filename_loop_consumes default_name lines : forall w r w',
  get_output_filename_loop default_name lines w = (r, w') ->
  (length (stdin w') <= Nat.max (length (stdin w)) (length lines))%nat.
Proof.
  induction lines as [|line rest IH]; intros w r w' H.
  - injection H as <- <-. lia.
  - cbn [get_output_filename_loop] in H. unfold_M. cbn zeta in H.
    match type of H with
    | context [if ?b then _ else _] => destruct b
    end.
    + apply IH in H. cbn [stdin set_stdout set_stdin length] in *. lia.
    + injection H as <- <-. cbn [stdin set_stdin length]. lia.
Qed.

Lemma consumes_get_output_filename default_name :
  consumes (get_output_filename default_name).
Proof.
  intros w r w'. unfold get_output_filename, get. unfold mbind, M_bind.
  intros H. apply get_output_filename_loop_consumes in H. lia.
Qed.

Lemma get_valid_url_loop_consumes lib n : forall lines w r w',
  (length lines <= n)%nat ->
  get_valid_url_loop lib lines w = (r, w') ->
  (length (stdin w') <= Nat.max (length (stdin w)) (length lines))%nat.
Proof.
  induction n as [|n IH]; intros lines w r w' Hlen H.
  { destruct lines; [injection H as <- <-; lia|cbn in Hlen; lia]. }
  destruct lines as [|line rest]; [injection H as <- <-; lia|].
  cbn [length] in Hlen. cbn [get_valid_url_loop] in H. unfold_M. cbn zeta in H.
  destruct (String.eqb (Str.lower (Str.strip line)) "q").
  { injection H as <- <-. cbn [stdin set_stdin length]. lia. }
  destruct (validators_url lib (Str.strip line)); cbn [negb] in H.
  2:{ apply IH in H; [|lia]. cbn [stdin set_stdout set_stdin length] in *. lia. }
  destruct (is_blog_url lib (Str.strip line)); cbn [negb] in H.
  { injection H as <- <-. cbn [stdin set_stdin length]. lia. }
  destruct rest as [|answer rest'].
  { injection H as <- <-. cbn [stdin set_stdout set_stdin length]. lia. }
  cbn [fst snd] in H. cbv beta in H.
  destruct (String.eqb (Str.lower answer) "y"); cbn [negb] in H.
  { injection H as <- <-. cbn [stdin set_stdout set_stdin length]. lia. }
  apply IH in H; [|cbn [length] in Hlen; lia].
  cbn [stdin set_stdout set_stdin length] in *. lia.
Qed.

Lemma consumes_get_valid_url lib : consumes (get_valid_url lib).
Proof.
  unfold get_valid_url. apply consumes_bind; [apply consumes_print|intros _].
  intros w r w'. unfold get. unfold mbind, M_bind. intros H.
  apply (get_valid_url_loop_consumes lib (length (stdin w))) in H; lia.
Qed.

Lemma consumes_merge_loop file_paths : forall merger error_count,
  consumes (merge_loop file_paths merger error_count).
Proof.
  induction file_paths as [|p paths IH]; intros merger ec;
    cbn [merge_loop]; consumes_all; apply IH.
Qed.

Lemma consumes_open_images image_paths : forall images,
  consumes (open_images image_paths images).
Proof.
  induction image_paths as [|p paths IH]; intros images;
    cbn [open_images]; consumes_all; apply IH.
Qed.

Lemma consumes_convert_office_to_pdf soffice input_path temp_dir file_type :
  consumes (convert_office_to_pdf soffice input_path temp_dir file_type).
Proof. unfold convert_office_to_pdf. consumes_all. Qed.

Lemma consumes_office_loop soffice temp_dir file_type names :
  forall merger error_count,
  consumes (office_loop soffice temp_dir file_type names merger error_count).
Proof.
  induction names as [|f names IH]; intros merger ec; cbn [office_loop].
  - consumes_all.
  - apply consumes_bind; [apply consumes_convert_office_to_pdf|intros res].
    apply consumes_bind; [consumes_all|intros s]. apply IH.
Qed.

Lemma consumes_merge_pdfs disk file_paths output_filename :
  consumes (merge_pdfs disk file_paths output_filename).
Proof.
  unfold merge_pdfs, merger_close.
  apply consumes_bind; [apply consumes_merge_loop|intros s]. consumes_all.
Qed.

Lemma consumes_convert_blog net url output_filename :
  consumes (convert_blog net url output_filename).
Proof.
  unfold convert_blog, convert_blog_try, requests_get, raise_for_status.
  consumes_all.
Qed.

Lemma consumes_convert_images_to_pdf disk image_paths output_filename :
  consumes (convert_images_to_pdf disk image_paths output_filename).
Proof.
  unfold convert_images_to_pdf, save_all.
  apply consumes_try_except; [|intros e; consumes_all].
  apply consumes_bind; [apply consumes_open_images|intros images].
  consumes_all.
Qed.

Lemma consumes_pdf_merger disk : consumes (pdf_merger disk).
Proof.
  unfold pdf_merger, get_file_names.
  apply consumes_bind; [apply consumes_print|intros _].
  apply consumes_bind.
  { apply consumes_bind; [apply consumes_print|intros _].
    apply consumes_collect, consumes_validate_pdf_file. }
  intros names. destruct names; [apply consumes_print|].
  apply consumes_bind; [apply consumes_get_output_filename|intros out].
  apply consumes_merge_pdfs.
Qed.

Lemma consumes_image_to_pdf disk : consumes (image_to_pdf disk).
Proof.
  unfold image_to_pdf, get_image_files.
  apply consumes_bind; [apply consumes_print|intros _].
  apply consumes_bind.
  { apply consumes_bind; [apply consumes_print|intros _].
    apply consumes_collect, consumes_validate_image_file. }
  intros names. destruct names; [apply consumes_print|].
  apply consumes_bind; [apply consumes_get_output_filename|intros out].
  apply consumes_convert_images_to_pdf.
Qed.

Lemma consumes_blog_to_pdf lib net : consumes (blog_to_pdf lib net).
Proof.
  unfold blog_to_pdf.
  apply consumes_bind; [apply consumes_print|intros _].
  apply consumes_bind; [apply consumes_get_valid_url|intros url].
  destruct url as [u|]; [destruct (Str.truthy u)|]; try apply consumes_print.
  apply consumes_bind; [apply consumes_get_output_filename|intros out].
  apply consumes_convert_blog.
Qed.

Lemma consumes_handle_office_conversion soffice disk tmpname file_type
    extensions default_output :
  consumes (handle_office_conversion soffice disk tmpname file_type
              extensions default_output).
Proof.
  unfold handle_office_conversion, get_office_files, merger_close.
  apply consumes_bind; [apply consumes_print|intros _].
  apply consumes_bind.
  { apply consumes_bind; [apply consumes_print|intros _].
    apply consumes_collect. intros n. apply consumes_validate_office_file. }
  intros names. destruct names as [|n names]; [apply consumes_print|].
  apply consumes_bind; [apply consumes_get_output_filename|intros out].
  apply consumes_bind; [apply consumes_TemporaryDirectory|intros temp_dir].
  apply consumes_bind; [|intros _; apply consumes_release].
  apply consumes_bind; [apply consumes_office_loop|intros s].
  consumes_all.
Qed.

(** ** Sessions *)

Lemma show_menu_run w :
  show_menu w
  = match stdin w with
    | [] => (Raise EOFError, set_stdout (stdout w ++ main_menu_lines) w)
    | choice :: rest =>
        (Ok choice, World rest (stdout w ++ main_menu_lines) (files w) (dirs w))
    end.
Proof.
  unfold show_menu, clear_screen, input. unfold_M.
  cbn [stdin stdout files dirs set_stdout set_stdin].
  destruct (stdin w); unfold main_menu_lines, set_stdout, set_stdin;
    cbn [stdin stdout files dirs]; by rewrite <- !app_assoc.
Qed.

Lemma create_pdf_menu_run w :
  create_pdf_menu w
  = match stdin w with
    | [] => (Raise EOFError, set_stdout (stdout w ++ create_menu_lines) w)
    | choice :: rest =>
        (Ok choice,
         World rest (stdout w ++ create_menu_lines) (files w) (dirs w))
    end.
Proof.
  unfold create_pdf_menu, clear_screen, input. unfold_M.
  cbn [stdin stdout files dirs set_stdout set_stdin].
  destruct (stdin w); unfold create_menu_lines, set_stdout, set_stdin;
    cbn [stdin stdout files dirs]; by rewrite <- !app_assoc.
Qed.

Lemma consumes_create_pdf_round env sub_choice :
  consumes (create_pdf_round env sub_choice).
Proof.
  unfold create_pdf_round, word_to_pdf, excel_to_pdf, powerpoint_to_pdf.
  apply consumes_bind; [|intros _; consumes_all].
  repeat match goal with
         | |- consumes (if ?b then _ else _) => destruct b
         end;
    first [ apply consumes_image_to_pdf
          | apply consumes_handle_office_conversion
          | apply consumes_print ].
Qed.

Lemma create_pdf_loop_ends env fuel : forall w,
  (length (stdin w) < fuel)%nat ->
  exists r w',
    create_pdf_loop env fuel w = Some (r, w')
    /\ (length (stdin w') <= length (stdin w))%nat.
Proof.
  induction fuel as [|fuel IH]; intros w Hlen; [lia|].
  cbn [create_pdf_loop]. rewrite create_pdf_menu_run.
  destruct (stdin w) as [|choice rest] eqn:E.
  { do 2 eexists. split; [reflexivity|]. cbn [stdin set_stdout]. rewrite E. lia. }
  destruct (String.eqb choice "5").
  { do 2 eexists. split; [reflexivity|]. cbn [stdin length]. lia. }
  destruct (create_pdf_round env choice _) as [[[]|e] w2] eqn:R;
    apply consumes_create_pdf_round in R; cbn [stdin length] in *.
  - destruct (IH w2) as (r & w' & -> & Hle); [lia|].
    exists r, w'. split; [reflexivity|]. lia.
  - do 2 eexists. split; [reflexivity|]. lia.
Qed.

Lemma create_pdf_loop_more_fuel env fuel : forall w x,
  create_pdf_loop env fuel w = Some x ->
  create_pdf_loop env (S fuel) w = Some x.
Proof.
  induction fuel as [|fuel IH]; intros w x H; [discriminate H|].
  cbn [create_pdf_loop] in H. change (create_pdf_loop env (S (S fuel)) w)
    with (match create_pdf_menu w with
          | (Raise e, w1) => Some (Raise e, w1)
          | (Ok sub_choice, w1) =>
              if String.eqb sub_choice "5" then Some (Ok tt, w1)
              else match create_pdf_round env sub_choice w1 with
                   | (Raise e, w2) => Some (Raise e, w2)
                   | (Ok _, w2) => create_pdf_loop env (S fuel) w2
                   end
          end).
  destruct (create_pdf_menu w) as [[choice|e] w1]; [|exact H].
  destruct (String.eqb choice "5"); [exact H|].
  destruct (create_pdf_round env choice w1) as [[[]|e] w2]; [|exact H].
  by apply IH.
Qed.

Lemma main_loop_unfold env fuel w :
  main_loop env (S fuel) w
  = match show_menu w with
    | (Raise e, w1) => Some (Raise e, w1)
    | (Ok choice, w1) =>
        if String.eqb choice "4" then Some (print (Say "Exiting...") w1)
        else
          match (if String.eqb choice "1" then
                   Some (pdf_merger (env_disk env) w1)
                 else if String.eqb choice "2" then
                   Some (blog_to_pdf (env_urls env) (env_net env) w1)
                 else if String.eqb choice "3" then
                   create_pdf_loop env fuel w1
                 else Some (print (Say "Invalid choice!") w1)) with
          | None => None
          | Some (Raise e, w2) => Some (Raise e, w2)
          | Some (Ok _, w2) =>
              match input w2 with
              | (Raise e, w3) => Some (Raise e, w3)
              | (Ok _, w3) => main_loop env fuel w3
              end
          end
    end.
Proof. reflexivity. Qed.

Lemma main_loop_ends env fuel : forall w,
  (length (stdin w) < fuel)%nat ->
  exists r w',
    main_loop env fuel w = Some (r, w')
    /\ (length (stdin w') <= length (stdin w))%nat.
Proof.
  induction fuel as [|fuel IH]; intros w Hlen; [lia|].
  rewrite main_loop_unfold, show_menu_run.
  destruct (stdin w) as [|choice rest] eqn:E.
  { do 2 eexists. split; [reflexivity|]. cbn [stdin set_stdout]. rewrite E. lia. }
  cbn [length] in Hlen.
  destruct (String.eqb choice "4").
  { do 2 eexists. split; [reflexivity|]. cbn. lia. }
  set (w1 := World rest _ _ _).
  assert (exists r w2,
    (if String.eqb choice "1" then Some (pdf_merger (env_disk env) w1)
     else if String.eqb choice "2" then
       Some (blog_to_pdf (env_urls env) (env_net env) w1)
     else if String.eqb choice "3" then create_pdf_loop env fuel w1
     else Some (print (Say "Invalid choice!") w1)) = Some (r, w2)
    /\ (length (stdin w2) <= length rest)%nat) as (r & w2 & -> & Hle).
  { destruct (String.eqb choice "1").
    { destruct (pdf_merger (env_disk env) w1) as [r w2] eqn:F.
      apply consumes_pdf_merger in F. by exists r, w2. }
    destruct (String.eqb choice "2").
    { destruct (blog_to_pdf _ _ w1) as [r w2] eqn:F.
      apply consumes_blog_to_pdf in F. by exists r, w2. }
    destruct (String.eqb choice "3").
    { apply create_pdf_loop_ends. unfold w1. cbn [stdin]. lia. }
    do 2 eexists. split; [reflexivity|]. cbn. lia. }
  destruct r as [[]|e].
  - destruct (input w2) as [[l|e] w3] eqn:I.
    + pose proof I as Hc. apply consumes_input in Hc.
      unfold input in I. destruct (stdin w2) as [|l' rest2] eqn:E2;
        [discriminate I|]. injection I as <- <-.
      cbn [stdin set_stdin length] in *.
      destruct (IH (set_stdin rest2 w2)) as (r & w' & -> & Hle');
        [cbn [stdin set_stdin]; lia|].
      exists r, w'. split; [reflexivity|]. cbn [stdin set_stdin] in Hle'. lia.
    + apply consumes_input in I. do 2 eexists. split; [reflexivity|].
      cbn [length]. lia.
  - do 2 eexists. split; [reflexivity|]. cbn [length]. lia.
Qed.

Lemma main_loop_more_fuel env fuel : forall w x,
  main_loop env fuel w = Some x -> main_loop env (S fuel) w = Some x.
Proof.
  induction fuel as [|fuel IH]; intros w x H; [discriminate H|].
  rewrite main_loop_unfold in H. rewrite main_loop_unfold.
  destruct (show_menu w) as [[choice|e] w1]; [|exact H].
  destruct (String.eqb choice "4"); [exact H|].
  destruct (String.eqb choice "1").
  { destruct (pdf_merger _ w1) as [[[]|e] w2]; [|exact H].
    destruct (input w2) as [[l|e] w3]; [by apply IH|exact H]. }
  destruct (String.eqb choice "2").
  { destruct (blog_to_pdf _ _ w1) as [[[]|e] w2]; [|exact H].
    destruct (input w2) as [[l|e] w3]; [by apply IH|exact H]. }
  destruct (String.eqb choice "3").
  { destruct (create_pdf_loop env fuel w1) as [[[[]|e] w2]|] eqn:F;
      [| |discriminate H];
      rewrite (create_pdf_loop_more_fuel _ _ _ _ F); [|exact H].
    destruct (input w2) as [[l|e] w3]; [by apply IH|exact H]. }
  destruct (print (Say "Invalid choice!") w1) as [[[]|e] w2]; [|exact H].
  destruct (input w2) as [[l|e] w3]; [by apply IH|exact H].
Qed.

Lemma main_loop_fuel_le env fuel fuel' w x :
  (fuel <= fuel')%nat ->
  main_loop env fuel w = Some x -> main_loop env fuel' w = Some x.
Proof.
  induction 1 as [|fuel' _ IH]; [done|].
  intros H. by apply main_loop_more_fuel, IH.
Qed.

(** A session over a finite input always ends, and how it ends does not
    depend on the bound on the rounds: once more rounds are allowed than
    there are lines to read, the main loop has an outcome, the same for
    every such bound, and it has not put back any line. *)
Theorem session_ends (env : outside) (w : world) (fuel : nat) :
  (length (stdin w) < fuel)%nat ->
  exists r w',
    main_loop env fuel w = Some (r, w')
    /\ (forall fuel', (length (stdin w) < fuel')%nat ->
         main_loop env fuel' w = Some (r, w'))
    /\ (length (stdin w') <= length (stdin w))%nat.
Proof.
  intros Hlen.
  destruct (main_loop_ends env fuel w Hlen) as (r & w' & H & Hle).
  exists r, w'. split; [exact H|]. split; [|exact Hle].
  intros fuel' Hlen'.
  destruct (main_loop_ends env fuel' w Hlen') as (r' & w'' & H' & _).
  apply (main_loop_fuel_le env fuel (Nat.max fuel fuel')) in H; [|lia].
  pose proof (main_loop_fuel_le env fuel' (Nat.max fuel fuel') _ _
                ltac:(lia) H') as H''.
  congruence.
Qed.

Lemma session_ends_witness :
  exists r w',
    main_loop fair_weather 5 (start ["3"; "9"; ""; "5"] shelf) = Some (r, w')
    /\ r = Raise EOFError.
Proof.
  destruct (session_ends fair_weather (start ["3"; "9"; ""; "5"] shelf) 5)
    as (r & w' & H & _); [cbn; lia|].
  exists r, w'. split; [exact H|].
  vm_compute in H. by injection H as <- _.
Defined.

(** The program ends normally only through entry 4 of the main menu: when
    the main loop returns without an exception, the last line it printed
    is the farewell.  Every other end of a session is an exception, such
    as the [EOFError] of an input that ran out. *)
Theorem session_exits_only_at_4 (env : outside) (fuel : nat) (w w' : world) :
  main_loop env fuel w = Some (Ok tt, w') ->
  last (stdout w') = Some (Say "Exiting...").
Proof.
  revert w w'. induction fuel as [|fuel IH]; intros w w' H; [discriminate H|].
  rewrite main_loop_unfold in H.
  destruct (show_menu w) as [[choice|e] w1]; [|discriminate H].
  destruct (String.eqb choice "4").
  { injection H as <-. cbn. by rewrite last_snoc. }
  match type of H with
  | context [match ?f with Some _ => _ | None => _ end] =>
      destruct f as [[[[]|e] w2]|]
  end; try discriminate H.
  destruct (input w2) as [[l|e] w3]; [by apply IH in H|discriminate H].
Qed.

Lemma session_exits_only_at_4_witness :
  last (stdout (World ["unread"]
                  (main_menu_lines ++ [Say "Invalid choice!"]
                     ++ main_menu_lines ++ [Say "Exiting..."]) shelf ∅))
  = Some (Say "Exiting...").
Proof.
  apply (session_exits_only_at_4 fair_weather 2
           (start [" 4"; ""; "4"; "unread"] shelf)).
  vm_compute. reflexivity.
Defined.

(** ** Leaving the blog feature without a URL *)

Lemma get_valid_url_loop_invalid lib pre : forall line rest w,
  Forall (fun l => is_quit l = false
                   /\ validators_url lib (Str.strip l) = false) pre ->
  is_quit line = true ->
  get_valid_url_loop lib (pre ++ line :: rest) w
  = (Ok None,
     World rest
       (stdout w ++ replicate (length pre) (Say "Invalid URL format"))
       (files w) (dirs w)).
Proof.
  induction pre as [|l pre IH]; intros line rest w Hpre Hq.
  - cbn [app get_valid_url_loop]. unfold_M. unfold is_quit in Hq.
    cbn zeta. rewrite Hq. cbn [length replicate]. by rewrite app_nil_r.
  - apply Forall_cons in Hpre as [[Hl Hv] Hpre].
    change ((l :: pre) ++ line :: rest) with (l :: (pre ++ line :: rest)).
    cbn [get_valid_url_loop]. unfold_M. unfold is_quit in Hl.
    cbn zeta. rewrite Hl, Hv. cbn [negb fst snd]. cbv beta.
    rewrite IH by done. cbn [stdout files dirs set_stdout set_stdin length
                             replicate].
    by rewrite <- app_assoc.
Qed.

(** When the user answers the URL prompt with ill-formed URLs and then
    quits, [blog_to_pdf] reports each of them, prints its warning and
    returns, whatever the network would have answered: nothing is fetched
    or written, no output name is asked for, and nothing past the quit
    line is read. *)
Theorem blog_to_pdf_without_url (lib : url_lib) (net : web) (w : world)
    (pre : list string) (line : string) (rest : list string) :
  stdin w = pre ++ line :: rest ->
  Forall (fun l => is_quit l = false
                   /\ validators_url lib (Str.strip l) = false) pre ->
  is_quit line = true ->
  blog_to_pdf lib net w
  = (Ok tt,
     World rest
       (stdout w
          ++ [Say "=== Blog to PDF Converter ===";
              Say "Enter blog post URL (type 'q' to return):"]
          ++ replicate (length pre) (Say "Invalid URL format")
          ++ [Say "Invalid URL. Returning to menu."])
       (files w) (dirs w)).
Proof.
  intros Hin Hpre Hq. unfold blog_to_pdf, get_valid_url. unfold_M.
  cbn [stdin set_stdout]. rewrite Hin, get_valid_url_loop_invalid by done.
  cbn [stdin stdout files dirs set_stdout]. by rewrite <- !app_assoc.
Qed.

Lemma blog_to_pdf_without_url_witness :
  blog_to_pdf plain_urls not_found_site
    (start ["example.com/blog/1"; " Q "; "x"] shelf)
  = (Ok tt,
     World ["x"]
       [Say "=== Blog to PDF Converter ===";
        Say "Enter blog post URL (type 'q' to return):";
        Say "Invalid URL format"; Say "Invalid URL. Returning to menu."]
       shelf ∅).
Proof.
  rewrite (blog_to_pdf_without_url plain_urls not_found_site _
             ["example.com/blog/1"] " Q " ["x"]).
  - vm_compute. reflexivity.
  - reflexivity.
  - repeat constructor.
  - reflexivity.
Defined.
